(** * PsyhoApp, AuthMicroservice: the credential orchestrator

    A shallow embedding of [internal/usecase/auth.go] together with the
    store adapters it is wired to ([internal/infra/postgres],
    [internal/infra/redis]), and the properties of the specification that
    concern them.

    Conventions.
    - Go [int] values (row ids, user ids) are [Z]; no arithmetic is done on
      them by the code, so no wrap-around arises.
    - A Go [string] is a [string]; a [byte] is an [ascii].
    - A Go [error] value is an [option error], [None] being the nil
      interface.  A method that returns [( *T, error)] and always returns
      exactly one of the two non-nil is given the type [result T].
    - Every method runs in the monad [M] over a [World] holding the
      relational store, the cache, the clock, the entropy still available
      to [crypto/rand], the faults the drivers will report, and the
      goroutines started but not yet run.
    - [slog] output is not part of the state.  The arguments of a logging
      call are still evaluated where their evaluation can fail. *)

From Stdlib Require Import ZArith String Ascii List Lia.
From stdpp Require Import base option list gmap strings numbers pretty.

Local Open Scope Z_scope.

(** ** Go error values *)

Module errors.

(** The error values that flow through the service.  The first block are
    the sentinels declared in [usecase/auth.go]; the second the sentinels
    of [database/sql], [pgx] and [go-redis]; [errorString] is an error
    made by [errors.New] or by [fmt.Errorf] without [%w] (also: whatever a
    driver reports for a fault); [wrapError] is [fmt.Errorf("...%w", err)],
    [prefix] being the text before the wrapped error. *)
Inductive error : Type :=
  | ErrAccountAlreadyExists
  | ErrAccountNotFound
  | ErrBadCredentials
  | ErrTokenNotFound
  | ErrLinkNotFound
  | ErrNotActivated
  | ErrInvalidRole
  | ErrVerificationFailed
  | ErrTgConnNotFound
  | ErrCacheNotFound
  | sql_ErrNoRows
  | pgx_ErrNoRows
  | redis_Nil
  | errorString (msg : string)
  | wrapError (prefix : string) (err : error).

#[global] Instance error_eq_dec : EqDecision error.
Proof. solve_decision. Defined.

(** [err.Error()] on a non-nil error. *)
Fixpoint Error (err : error) : string :=
  match err with
  | ErrAccountAlreadyExists => "account with this credentials already exists"
  | ErrAccountNotFound => "account with this credentials not found"
  | ErrBadCredentials => "bad credentials"
  | ErrTokenNotFound => "token not found"
  | ErrLinkNotFound => "link not found"
  | ErrNotActivated => "not activated account"
  | ErrInvalidRole => "invalid role"
  | ErrVerificationFailed => "verification failed"
  | ErrTgConnNotFound => "telegram connectino not found"
  | ErrCacheNotFound => "cache not found"
  | sql_ErrNoRows => "sql: no rows in result set"
  | pgx_ErrNoRows => "no rows in result set"
  | redis_Nil => "redis: nil"
  | errorString msg => msg
  | wrapError prefix err => prefix +:+ Error err
  end.

(** [err.Error()] on an interface value that may be nil: calling a method
    on the nil interface is a run-time panic, rendered as [None]. *)
Definition Error_method (err : option error) : option string :=
  match err with
  | Some e => Some (Error e)
  | None => None
  end.

(** The [Is] method of an error, where it has one: [pgx.ErrNoRows]
    declares itself to be [sql.ErrNoRows] (pgx v5.7 and later). *)
Definition Is_method (err target : error) : bool :=
  match err, target with
  | pgx_ErrNoRows, sql_ErrNoRows => true
  | _, _ => false
  end.

(** [errors.Is(err, target)] for a non-nil [err]: equality, the [Is]
    method, then the same down the [Unwrap] chain.  The targets used by the
    code are all sentinels, for which Go's [==] is equality of the
    constructor. *)
Fixpoint Is (err target : error) : bool :=
  bool_decide (err = target) || Is_method err target ||
  match err with
  | wrapError _ e => Is e target
  | _ => false
  end.

(** [fmt.Errorf("%s: %w", op, err)]. *)
Definition Errorf_wrap (op : string) (err : error) : error :=
  wrapError (op +:+ ": ") err.

End errors.
Export errors.

(** A pointer-and-error pair of which exactly one is non-nil. *)
Inductive result (A : Type) : Type :=
  | Ok (a : A)
  | Err (e : error).
Arguments Ok {A} a.
Arguments Err {A} e.

(** ** Entities *)

Module entity.

(** [time.Time], as a point on the clock of the [World]. *)
Definition Time : Type := Z.

Record SerivceToken : Type := mkSerivceToken {
  st_ID : Z;
  st_ServiceName : string;
  st_Token : string;
  st_CreatedAt : Time;
  st_UpdatedAt : Time }.

Record AccessToken : Type := mkAccessToken {
  at_ID : Z;
  at_UserID : Z;
  at_Token : string;
  at_CreatedAt : Time;
  at_UpdatedAt : Time }.

Record TgConnection : Type := mkTgConnection {
  tg_ID : Z;
  tg_UserID : Z;
  tg_TgUserID : Z;
  tg_CreatedAt : Time;
  tg_UpdatedAt : Time }.

(** [entity.User], [entity.Role], [entity.LoginResponse] and
    [entity.AuthCode] are declared in files that are not part of the
    sources at hand; their fields are those the repositories scan into and
    the service reads ([AuthCode] is converted from
    [config.AuthCodeConfig]). *)
Record User : Type := mkUser {
  u_ID : Z;
  u_Username : string;
  u_Password : string;
  u_Role : string;
  u_CreatedAt : Time;
  u_UpdatedAt : Time }.

Record Role : Type := mkRole {
  r_ID : Z;
  r_Title : string;
  r_CreatedAt : Time;
  r_UpdatedAt : Time }.

Record LoginResponse : Type := mkLoginResponse {
  lr_ID : Z;
  lr_Token : string }.

(** [Length] is the number of digits of a code; [make([]byte, Length)]
    panics on a negative length, which the type [nat] leaves out.  [TTL] is
    a [time.Duration]. *)
Record AuthCode : Type := mkAuthCode {
  Length : nat;
  TTL : Z }.

#[global] Instance SerivceToken_eq_dec : EqDecision SerivceToken.
Proof. solve_decision. Defined.
#[global] Instance AccessToken_eq_dec : EqDecision AccessToken.
Proof. solve_decision. Defined.
#[global] Instance TgConnection_eq_dec : EqDecision TgConnection.
Proof. solve_decision. Defined.

End entity.
Export entity.

(** ** The world the service runs in *)

(** The tables of the relational store.  The rows of [token],
    [service_token], [telegram_connection] and [role] have the columns of
    the entity they are scanned into; a row of [account] holds the id of
    its role where [entity.User] holds the role's title.  Each table has a
    sequence that supplies the [id] of a new row. *)
Record account_row : Type := mkAccountRow {
  a_id : Z;
  a_username : string;
  a_password : string;
  a_role_id : Z;
  a_created_at : Time;
  a_updated_at : Time }.

Record DB : Type := mkDB {
  role : list Role;
  role_id_seq : Z;
  account : list account_row;
  account_id_seq : Z;
  token : list AccessToken;
  token_id_seq : Z;
  service_token : list SerivceToken;
  service_token_id_seq : Z;
  telegram_connection : list TgConnection;
  telegram_connection_id_seq : Z }.

(** A goroutine started with [go] and not yet run: the closure of
    [GenerateAuthCode], with the variables it captures. *)
Inductive goroutine : Type :=
  | go_SetAuthCode (code : string) (userID : Z).

(** [rdb] maps a key of the cache to its bytes and the time at which it
    expires, if it does.  [entropy] is what [crypto/rand] can still read;
    reading past its end is the reader's error.  [faults] is the schedule
    of the drivers: each command sent to a store takes the next slot, and
    [Some msg] makes the command fail with that message without being
    carried out; past the end of the schedule no command fails.  [now] is
    the clock; it is moved from outside, not by the service reading it. *)
Record World : Type := mkWorld {
  db : DB;
  rdb : gmap string (string * option Z);
  now : Time;
  entropy : list ascii;
  faults : list (option string);
  goroutines : list goroutine }.

Definition with_db (d : DB) (w : World) : World :=
  mkWorld d (rdb w) (now w) (entropy w) (faults w) (goroutines w).
Definition with_rdb (r : gmap string (string * option Z)) (w : World) : World :=
  mkWorld (db w) r (now w) (entropy w) (faults w) (goroutines w).
Definition with_now (t : Time) (w : World) : World :=
  mkWorld (db w) (rdb w) t (entropy w) (faults w) (goroutines w).
Definition with_entropy (e : list ascii) (w : World) : World :=
  mkWorld (db w) (rdb w) (now w) e (faults w) (goroutines w).
Definition with_faults (f : list (option string)) (w : World) : World :=
  mkWorld (db w) (rdb w) (now w) (entropy w) f (goroutines w).
Definition with_goroutines (g : list goroutine) (w : World) : World :=
  mkWorld (db w) (rdb w) (now w) (entropy w) (faults w) g.

(** The state monad of the service. *)
Definition M (A : Type) : Type := World -> A * World.

Definition ret {A : Type} (a : A) : M A := fun w => (a, w).

Definition bind {A B : Type} (m : M A) (k : A -> M B) : M B :=
  fun w => let (a, w') := m w in k a w'.

Notation "'let*' x ':=' c 'in' k" := (bind c (fun x => k))
  (at level 10, x pattern, c at level 100, k at level 200).

(** [go f()]: the goroutine is queued; the caller goes on. *)
Definition go (g : goroutine) : M unit :=
  fun w => (tt, with_goroutines (goroutines w ++ [g]) w).

(** [time.Now()]. *)
Definition time_Now : M Time := fun w => (now w, w).

(** The next slot of the fault schedule: [Some msg] when the command about
    to be sent fails. *)
Definition next_fault : M (option string) := fun w =>
  match faults w with
  | [] => (None, w)
  | f :: fs => (f, with_faults fs w)
  end.

(** ** crypto/rand and encoding/hex *)

Module rand.

(** [rand.Read(b)] for a slice of [n] bytes. *)
Definition Read (n : nat) : M (result (list ascii)) := fun w =>
  if decide (n ≤ length (entropy w))%nat
  then (Ok (take n (entropy w)), with_entropy (drop n (entropy w)) w)
  else (Err (errorString "unexpected EOF"), with_entropy [] w).

(** [rand.Int(rand.Reader, big.NewInt(10))]: one byte is read and masked
    to the four bits of [9]; a value of ten or more is thrown away and the
    next byte read. *)
Fixpoint Int10_from (e : list ascii) : option (Z * list ascii) :=
  match e with
  | [] => None
  | b :: e' =>
      let v := Z.land (Z.of_N (N_of_ascii b)) 15 in
      if v <? 10 then Some (v, e') else Int10_from e'
  end.

Definition Int10 : M (result Z) := fun w =>
  match Int10_from (entropy w) with
  | Some (v, e') => (Ok v, with_entropy e' w)
  | None => (Err (errorString "unexpected EOF"), with_entropy [] w)
  end.

End rand.

Module hex.

Definition hextable : string := "0123456789abcdef".

Definition digit (n : N) : ascii :=
  match String.get (N.to_nat n) hextable with
  | Some c => c
  | None => "0"%char
  end.

(** [hex.EncodeToString]: two digits a byte, the high one first. *)
Fixpoint EncodeToString (src : list ascii) : string :=
  match src with
  | [] => EmptyString
  | b :: src' =>
      String (digit (N.shiftr (N_of_ascii b) 4))
        (String (digit (N.land (N_of_ascii b) 15)) (EncodeToString src'))
  end.

End hex.

(** ** encoding/json, at the one type that crosses the cache: [int] *)

Module json.

(** [json.Marshal(v)] for an [int]: its decimal numeral. *)
Definition Marshal (v : Z) : string := pretty v.

Definition is_digit (c : ascii) : bool :=
  (48 <=? N_of_ascii c)%N && (N_of_ascii c <=? 57)%N.

(** The value of a string of digits, most significant first. *)
Fixpoint digits_value (acc : Z) (s : string) : option Z :=
  match s with
  | EmptyString => Some acc
  | String c s' =>
      if is_digit c
      then digits_value (10 * acc + (Z.of_N (N_of_ascii c) - 48)) s'
      else None
  end.

(** A JSON integer numeral: an optional minus sign, then [0] or digits
    that do not start with [0]. *)
Definition numeral (s : string) : option Z :=
  let body (t : string) : option Z :=
    match t with
    | EmptyString => None
    | String "0" EmptyString => Some 0
    | String "0" _ => None
    | _ => digits_value 0 t
    end in
  match s with
  | String "-" t => Z.opp <$> body t
  | _ => body s
  end.

(** [json.Unmarshal(data, dest)] for [dest] a [*int] holding [old]: the
    new content of [dest] and the error.  [null] leaves [dest] alone and is
    no error; a numeral within the 64-bit range is stored; anything else
    is an error and leaves [dest] alone.  White space around the value and
    numerals with a fraction or an exponent are not modelled: they are
    errors here. *)
Definition Unmarshal (data : string) (old : Z) : Z * option error :=
  if bool_decide (data = "null") then (old, None)
  else match numeral data with
       | Some v =>
           if (- 2 ^ 63 <=? v) && (v <? 2 ^ 63) then (v, None)
           else (old, Some (errorString "json: cannot unmarshal number into Go value of type int"))
       | None => (old, Some (errorString "json: invalid value for Go value of type int"))
       end.

End json.

(** ** The drivers *)

(** What [pgx] does with a statement.  A statement, its arguments applied,
    is a function of the store: the rows it returns, or the error the
    server raises, and the store after it. *)
Module pgx.

Definition query (R : Type) : Type := DB -> result (list R) * DB.

(** [QueryRow(ctx, sql, args...).Scan(dest...)]: the first row of the
    result is scanned; no row is [pgx.ErrNoRows]. *)
Definition QueryRow_Scan {R : Type} (q : query R) : M (result R) :=
  let* f := next_fault in
  match f with
  | Some msg => ret (Err (errorString msg))
  | None => fun w =>
      let (r, d) := q (db w) in
      (match r with
       | Err e => Err e
       | Ok [] => Err pgx_ErrNoRows
       | Ok (x :: _) => Ok x
       end, with_db d w)
  end.

(** [Exec] of [PgxPoolWrapper]: the number of rows affected. *)
Definition Exec (c : DB -> result Z * DB) : M (Z * option error) :=
  let* f := next_fault in
  match f with
  | Some msg => ret (0, Some (errorString msg))
  | None => fun w =>
      let (r, d) := c (db w) in
      (match r with
       | Err e => (0, Some e)
       | Ok n => (n, None)
       end, with_db d w)
  end.

End pgx.

(** What [go-redis] does with the commands the repository sends. *)
Module redis.

(** An entry is live until its deadline. *)
Definition live (t : Time) (e : string * option Z) : bool :=
  match e.2 with
  | None => true
  | Some deadline => t <? deadline
  end.

Definition entry_of (key : string) (w : World) : option (string * option Z) :=
  match rdb w !! key with
  | Some e => if live (now w) e then Some e else None
  | None => None
  end.

(** [SET key value], with [PX]/[EX] for a positive expiration and
    [KEEPTTL] for [redis.KeepTTL] (-1); the rounding of an expiration to
    the server's resolution is not modelled. *)
Definition Set_ (key : string) (value : string) (expiration : Z) : M (option error) :=
  let* f := next_fault in
  match f with
  | Some msg => ret (Some (errorString msg))
  | None => fun w =>
      let deadline :=
        if 0 <? expiration then Some (now w + expiration)
        else if expiration =? -1
             then match entry_of key w with Some e => e.2 | None => None end
             else None in
      (None, with_rdb (<[key := (value, deadline)]> (rdb w)) w)
  end.

(** [GET key]: [redis.Nil] for a key that is absent or has expired. *)
Definition Get (key : string) : M (result string) :=
  let* f := next_fault in
  match f with
  | Some msg => ret (Err (errorString msg))
  | None => fun w =>
      match entry_of key w with
      | Some e => (Ok e.1, w)
      | None => (Err redis_Nil, w)
      end
  end.

(** [DEL key]: the number of keys removed. *)
Definition Del (key : string) : M (Z * option error) :=
  let* f := next_fault in
  match f with
  | Some msg => ret (0, Some (errorString msg))
  | None => fun w =>
      match entry_of key w with
      | Some _ => ((1, None), with_rdb (delete key (rdb w)) w)
      | None => ((0, None), with_rdb (delete key (rdb w)) w)
      end
  end.

End redis.

(** ** The statements the repositories send *)

Module sql.

(** Modelled from the spec: the schema of the store (the migrations) is
    not part of the sources.  The specification's data model makes
    [account.username], [role.title] and [service_token.service_name]
    unique and allows at most one [telegram_connection] per account id
    and per secondary-identity id; an [INSERT] that would break one of
    these is refused by the server with the error below.  The [id] of a
    new row is the next value of the table's sequence, which is consumed
    also when the row is refused.  Foreign keys are not modelled. *)
Definition unique_violation (constraint : string) : error :=
  errorString ("ERROR: duplicate key value violates unique constraint " +:+ constraint).

Definition set_role (l : list Role) (seq : Z) (d : DB) : DB :=
  mkDB l seq (account d) (account_id_seq d) (token d) (token_id_seq d)
    (service_token d) (service_token_id_seq d)
    (telegram_connection d) (telegram_connection_id_seq d).
Definition set_account (l : list account_row) (seq : Z) (d : DB) : DB :=
  mkDB (role d) (role_id_seq d) l seq (token d) (token_id_seq d)
    (service_token d) (service_token_id_seq d)
    (telegram_connection d) (telegram_connection_id_seq d).
Definition set_token (l : list AccessToken) (seq : Z) (d : DB) : DB :=
  mkDB (role d) (role_id_seq d) (account d) (account_id_seq d) l seq
    (service_token d) (service_token_id_seq d)
    (telegram_connection d) (telegram_connection_id_seq d).
Definition set_service_token (l : list SerivceToken) (seq : Z) (d : DB) : DB :=
  mkDB (role d) (role_id_seq d) (account d) (account_id_seq d)
    (token d) (token_id_seq d) l seq
    (telegram_connection d) (telegram_connection_id_seq d).
Definition set_telegram_connection (l : list TgConnection) (seq : Z) (d : DB) : DB :=
  mkDB (role d) (role_id_seq d) (account d) (account_id_seq d)
    (token d) (token_id_seq d) (service_token d) (service_token_id_seq d) l seq.

(** [SELECT id FROM role WHERE title = $1 LIMIT 1] *)
Definition select_role_id_by_title (title : string) : pgx.query Z := fun d =>
  (Ok (take 1 (r_ID <$> filter (λ r, r_Title r = title) (role d))), d).

(** [SELECT id, title, created_at, updated_at FROM role WHERE title = $1] *)
Definition select_role_by_title (title : string) : pgx.query Role := fun d =>
  (Ok (filter (λ r, r_Title r = title) (role d)), d).

(** [FROM "account" u JOIN role r ON u.role_id = r.id], with the columns
    [u.id, u.username, u.password, r.title, u.created_at, u.updated_at]. *)
Definition account_join_role (d : DB) : list User :=
  u ← account d;
  r ← filter (λ r, a_role_id u = r_ID r) (role d);
  [mkUser (a_id u) (a_username u) (a_password u) (r_Title r)
     (a_created_at u) (a_updated_at u)].

(** [... WHERE u.id = $1] *)
Definition select_user_by_id (id : Z) : pgx.query User := fun d =>
  (Ok (filter (λ u, u_ID u = id) (account_join_role d)), d).

(** [... WHERE u.username = $1] *)
Definition select_user_by_username (username : string) : pgx.query User := fun d =>
  (Ok (filter (λ u, u_Username u = username) (account_join_role d)), d).

(** [INSERT INTO "account"(username, password, role_id, created_at,
    updated_at) VALUES ($1, $2, $3, $4, $5) RETURNING id, username,
    password, role_id, created_at, updated_at] *)
Definition insert_account (username password : string) (roleID : Z)
    (createdAt updatedAt : Time) : pgx.query account_row := fun d =>
  let id := account_id_seq d + 1 in
  let row := mkAccountRow id username password roleID createdAt updatedAt in
  if decide (Exists (λ u, a_username u = username) (account d))
  then (Err (unique_violation "account_username_key"),
        set_account (account d) id d)
  else (Ok [row], set_account (account d ++ [row]) id d).

(** [UPDATE "account" SET role_id = $1, updated_at = $2 WHERE id = $3] *)
Definition update_account_role (roleID : Z) (updatedAt : Time) (userID : Z)
    : DB -> result Z * DB := fun d =>
  (Ok (Z.of_nat (length (filter (λ u, a_id u = userID) (account d)))),
   set_account
     ((λ u, if decide (a_id u = userID)
            then mkAccountRow (a_id u) (a_username u) (a_password u) roleID
                   (a_created_at u) updatedAt
            else u) <$> account d)
     (account_id_seq d) d).

(** [INSERT INTO service_token(service_name, token, created_at,
    updated_at) VALUES ($1, $2, $3, $4) RETURNING id, service_name, token,
    created_at, updated_at] *)
Definition insert_service_token (serviceName token : string)
    (createdAt updatedAt : Time) : pgx.query SerivceToken := fun d =>
  let id := service_token_id_seq d + 1 in
  let row := mkSerivceToken id serviceName token createdAt updatedAt in
  if decide (Exists (λ r, st_ServiceName r = serviceName) (service_token d))
  then (Err (unique_violation "service_token_service_name_key"),
        set_service_token (service_token d) id d)
  else (Ok [row], set_service_token (service_token d ++ [row]) id d).

(** [SELECT ... FROM service_token WHERE service_name = $1] *)
Definition select_service_token_by_service_name (serviceName : string)
    : pgx.query SerivceToken := fun d =>
  (Ok (filter (λ r, st_ServiceName r = serviceName) (service_token d)), d).

(** [SELECT ... FROM service_token WHERE token = $1] *)
Definition select_service_token_by_token (token : string)
    : pgx.query SerivceToken := fun d =>
  (Ok (filter (λ r, st_Token r = token) (service_token d)), d).

(** [INSERT INTO token(user_id, access_token, created_at, updated_at)
    VALUES ($1, $2, $3, $4) RETURNING id, user_id, access_token,
    created_at, updated_at] *)
Definition insert_token (userID : Z) (accessToken : string)
    (createdAt updatedAt : Time) : pgx.query AccessToken := fun d =>
  let id := token_id_seq d + 1 in
  let row := mkAccessToken id userID accessToken createdAt updatedAt in
  (Ok [row], set_token (token d ++ [row]) id d).

(** [SELECT ... FROM token WHERE access_token = $1] *)
Definition select_token_by_access_token (accessToken : string)
    : pgx.query AccessToken := fun d =>
  (Ok (filter (λ r, at_Token r = accessToken) (token d)), d).

(** [DELETE FROM token WHERE id = $1] *)
Definition delete_token (id : Z) : DB -> result Z * DB := fun d =>
  (Ok (Z.of_nat (length (filter (λ r, at_ID r = id) (token d)))),
   set_token (filter (λ r, at_ID r ≠ id) (token d)) (token_id_seq d) d).

(** [INSERT INTO telegram_connection(user_id, tg_user_id, created_at,
    updated_at) VALUES ($1, $2, $3, $4) RETURNING id, user_id, tg_user_id,
    created_at, updated_at] *)
Definition insert_telegram_connection (userID tgUserID : Z)
    (createdAt updatedAt : Time) : pgx.query TgConnection := fun d =>
  let id := telegram_connection_id_seq d + 1 in
  let row := mkTgConnection id userID tgUserID createdAt updatedAt in
  if decide (Exists (λ r, tg_UserID r = userID) (telegram_connection d))
  then (Err (unique_violation "telegram_connection_user_id_key"),
        set_telegram_connection (telegram_connection d) id d)
  else if decide (Exists (λ r, tg_TgUserID r = tgUserID) (telegram_connection d))
  then (Err (unique_violation "telegram_connection_tg_user_id_key"),
        set_telegram_connection (telegram_connection d) id d)
  else (Ok [row], set_telegram_connection (telegram_connection d ++ [row]) id d).

(** [SELECT ... FROM telegram_connection WHERE user_id = $1] *)
Definition select_telegram_connection_by_user_id (userID : Z)
    : pgx.query TgConnection := fun d =>
  (Ok (filter (λ r, tg_UserID r = userID) (telegram_connection d)), d).

End sql.

(** ** internal/infra/postgres: the repositories *)

Module postgres.

Module UserRepository.

(** Create creates a new user with the default 'user' role. *)
Definition Create (username password : string) : M (result User) :=
  let op := "repositories.UserRepository.Create" in
  let defaultRole := "user" in
  let* r := pgx.QueryRow_Scan (sql.select_role_id_by_title defaultRole) in
  match r with
  | Err err => ret (Err (wrapError (op +:+ ": failed to get default role: ") err))
  | Ok roleID =>
      let* createdAt := time_Now in
      let* updatedAt := time_Now in
      let* r := pgx.QueryRow_Scan
                  (sql.insert_account username password roleID createdAt updatedAt) in
      match r with
      | Err err => ret (Err (Errorf_wrap op err))
      | Ok row =>
          ret (Ok (mkUser (a_id row) (a_username row) (a_password row)
                     defaultRole (a_created_at row) (a_updated_at row)))
      end
  end.

Definition GetByID (id : Z) : M (result User) :=
  let op := "repositories.UserRepository.GetByID" in
  let* r := pgx.QueryRow_Scan (sql.select_user_by_id id) in
  match r with
  | Err err => ret (Err (Errorf_wrap op err))
  | Ok user => ret (Ok user)
  end.

Definition GetByUsername (username : string) : M (result User) :=
  let op := "repositories.UserRepository.GetByUsername" in
  let* r := pgx.QueryRow_Scan (sql.select_user_by_username username) in
  match r with
  | Err err => ret (Err (Errorf_wrap op err))
  | Ok user => ret (Ok user)
  end.

Definition UpdateUserRole (userID roleID : Z) : M (option error) :=
  let op := "repositories.UserRepository.UpdateUserRole" in
  let* updatedAt := time_Now in
  let* (result, err) := pgx.Exec (sql.update_account_role roleID updatedAt userID) in
  match err with
  | Some err => ret (Some (Errorf_wrap op err))
  | None =>
      if result =? 0
      then ret (Some (errorString
                        (op +:+ ": user with id " +:+ pretty userID +:+ " not found")))
      else ret None
  end.

End UserRepository.

Module RoleRepository.

Definition GetByTitle (title : string) : M (result Role) :=
  let op := "repositories.RoleRepository.GetByTitle" in
  let* r := pgx.QueryRow_Scan (sql.select_role_by_title title) in
  match r with
  | Err err => ret (Err (Errorf_wrap op err))
  | Ok role => ret (Ok role)
  end.

End RoleRepository.

Module TokenRepository.

Definition CreateServiceToken (serviceName token : string) : M (result SerivceToken) :=
  let op := "repositories.TokenRepository.CreateServiceToken" in
  let* createdAt := time_Now in
  let* updatedAt := time_Now in
  let* r := pgx.QueryRow_Scan
              (sql.insert_service_token serviceName token createdAt updatedAt) in
  match r with
  | Err err => ret (Err (Errorf_wrap op err))
  | Ok serviceToken => ret (Ok serviceToken)
  end.

Definition GetServiceTokenByServiceName (serviceName : string) : M (result SerivceToken) :=
  let op := "repositories.TokenRepository.GetServiceTokenByServiceName" in
  let* r := pgx.QueryRow_Scan (sql.select_service_token_by_service_name serviceName) in
  match r with
  | Err err => ret (Err (Errorf_wrap op err))
  | Ok serviceToken => ret (Ok serviceToken)
  end.

Definition GetServiceTokenByToken (token : string) : M (result SerivceToken) :=
  let op := "repositories.TokenRepository.GetServiceTokenByToken" in
  let* r := pgx.QueryRow_Scan (sql.select_service_token_by_token token) in
  match r with
  | Err err => ret (Err (Errorf_wrap op err))
  | Ok serviceToken => ret (Ok serviceToken)
  end.

Definition CreateAccessToken (userID : Z) (token : string) : M (result AccessToken) :=
  let op := "repositories.TokenRepository.CreateAccessToken" in
  let* createdAt := time_Now in
  let* updatedAt := time_Now in
  let* r := pgx.QueryRow_Scan (sql.insert_token userID token createdAt updatedAt) in
  match r with
  | Err err => ret (Err (Errorf_wrap op err))
  | Ok accessToken => ret (Ok accessToken)
  end.

Definition GetAccessTokenByToken (token : string) : M (result AccessToken) :=
  let op := "repositories.TokenRepository.GetAccessTokenByToken" in
  let* r := pgx.QueryRow_Scan (sql.select_token_by_access_token token) in
  match r with
  | Err err => ret (Err (Errorf_wrap op err))
  | Ok accessToken => ret (Ok accessToken)
  end.

Definition DeleteAccessToken (id : Z) : M (option error) :=
  let op := "repositories.TokenRepository.DeleteAccessToken" in
  let* (result, err) := pgx.Exec (sql.delete_token id) in
  match err with
  | Some err => ret (Some (Errorf_wrap op err))
  | None =>
      if result =? 0
      then ret (Some (errorString
                        (op +:+ ": access token with id " +:+ pretty id +:+ " not found")))
      else ret None
  end.

End TokenRepository.

Module TgConnectionRepository.

Definition Create (userID tgUserID : Z) : M (result TgConnection) :=
  let op := "repositories.TgConnectionRepository.Create" in
  let* createdAt := time_Now in
  let* updatedAt := time_Now in
  let* r := pgx.QueryRow_Scan
              (sql.insert_telegram_connection userID tgUserID createdAt updatedAt) in
  match r with
  | Err err => ret (Err (Errorf_wrap op err))
  | Ok tgConnection => ret (Ok tgConnection)
  end.

Definition GetByUserID (userID : Z) : M (result TgConnection) :=
  let op := "repositories.TgConnectionRepository.GetByUserID" in
  let* r := pgx.QueryRow_Scan (sql.select_telegram_connection_by_user_id userID) in
  match r with
  | Err err =>
      if errors.Is err sql_ErrNoRows
      then ret (Err ErrTgConnNotFound)
      else ret (Err (Errorf_wrap op err))
  | Ok tgConnection => ret (Ok tgConnection)
  end.

End TgConnectionRepository.

End postgres.

(** ** internal/infra/redis: the cache repository *)

Module redisrepo.

Module RedisRepository.

(** [value] is an [int] at the one place the service calls [Set];
    [json.Marshal] of an [int] has no error. *)
Definition Set_ (key : string) (value : Z) (expTime : Z) : M (option error) :=
  let op := "repositories.RedisRepository.Set" in
  let p := json.Marshal value in
  let* err := redis.Set_ key p expTime in
  match err with
  | Some err => ret (Some (Errorf_wrap op err))
  | None => ret None
  end.

(** [dest] is a [*int]; its content, [old] on entry, is returned with the
    error. *)
Definition Get (key : string) (old : Z) : M (Z * option error) :=
  let op := "repositories.RedisRepository.Get" in
  let* r := redis.Get key in
  match r with
  | Err err =>
      if bool_decide (err = redis_Nil)
      then ret (old, Some ErrCacheNotFound)
      else ret (old, Some (Errorf_wrap op err))
  | Ok value => ret (json.Unmarshal value old)
  end.

Definition Del (key : string) : M (Z * option error) :=
  let op := "repositories.RedisRepository.Del" in
  let* (res, err) := redis.Del key in
  match err with
  | Some err => ret (res, Some (Errorf_wrap op err))
  | None => ret (res, None)
  end.

End RedisRepository.

End redisrepo.

(** ** golang.org/x/crypto/bcrypt, as a capability *)

Module bcrypt.

Definition DefaultCost : Z := 10.

Definition ErrPasswordTooLong : error :=
  errorString "bcrypt: password length exceeds 72 bytes".

(** The algorithm is a capability: [hash password cost salt] is the digest,
    [CompareHashAndPassword hashedPassword password] is nil when the
    password fits the digest. *)
Record t : Type := mk {
  hash : string -> Z -> list ascii -> string;
  CompareHashAndPassword : string -> string -> option error }.

(** [GenerateFromPassword(password, cost)]: a password of more than 72
    bytes is refused; the salt is 16 bytes of [crypto/rand]. *)
Definition GenerateFromPassword (h : t) (password : string) (cost : Z)
    : M (result string) :=
  if decide (72 < String.length password)%nat
  then ret (Err ErrPasswordTooLong)
  else
    let* r := rand.Read 16 in
    match r with
    | Err err => ret (Err err)
    | Ok salt => ret (Ok (hash h password cost salt))
    end.

End bcrypt.

(** ** internal/usecase: the service *)

Module usecase.

(** The interfaces the service is written against, each with the methods
    the service calls. *)
Module UserRepoI.
Record t : Type := mk {
  GetByID : Z -> M (result User);
  GetByUsername : string -> M (result User);
  Create : string -> string -> M (result User);
  UpdateUserRole : Z -> Z -> M (option error) }.
End UserRepoI.

Module RoleRepoI.
Record t : Type := mk {
  GetByTitle : string -> M (result Role) }.
End RoleRepoI.

Module TokenRepoI.
Record t : Type := mk {
  CreateServiceToken : string -> string -> M (result SerivceToken);
  GetServiceTokenByServiceName : string -> M (result SerivceToken);
  GetServiceTokenByToken : string -> M (result SerivceToken);
  CreateAccessToken : Z -> string -> M (result AccessToken);
  GetAccessTokenByToken : string -> M (result AccessToken);
  DeleteAccessToken : Z -> M (option error) }.
End TokenRepoI.

Module TgConnectionRepoI.
Record t : Type := mk {
  Create : Z -> Z -> M (result TgConnection);
  GetByUserID : Z -> M (result TgConnection) }.
End TgConnectionRepoI.

Module RedisRepository.
Record t : Type := mk {
  Set_ : string -> Z -> Z -> M (option error);
  Del : string -> M (Z * option error);
  Get : string -> Z -> M (Z * option error) }.
End RedisRepository.

Record AuthService : Type := NewAuthService {
  userRepo : UserRepoI.t;
  roleRepo : RoleRepoI.t;
  tokenRepo : TokenRepoI.t;
  tgConn : TgConnectionRepoI.t;
  authCodes : RedisRepository.t;
  authCode : AuthCode }.

(** generateAccessToken generates a random access token. *)
Definition generateAccessToken (s : AuthService) : M (string * option error) :=
  let* r := rand.Read 32 in
  match r with
  | Err err => ret ("", Some err)
  | Ok bytes => ret (hex.EncodeToString bytes, None)
  end.

(** generateServiceToken generates a random service token. *)
Definition generateServiceToken (s : AuthService) : M (string * option error) :=
  let* r := rand.Read 32 in
  match r with
  | Err err => ret ("", Some err)
  | Ok bytes => ret (hex.EncodeToString bytes, None)
  end.

(** The loop of [generateRandomCode], [n] rounds from the end:
    [code[i] = byte('0' + num.Int64())]. *)
Fixpoint randomDigits (n : nat) : M (result string) :=
  match n with
  | O => ret (Ok EmptyString)
  | S n' =>
      let* r := rand.Int10 in
      match r with
      | Err err => ret (Err err)
      | Ok num =>
          let* rest := randomDigits n' in
          match rest with
          | Err err => ret (Err err)
          | Ok code => ret (Ok (String (ascii_of_N (Z.to_N ((48 + num) mod 256))) code))
          end
      end
  end.

(** generateRandomCode generates a random authentication code consisting
    of digits only. *)
Definition generateRandomCode (s : AuthService) : M (string * option error) :=
  let* r := randomDigits (Length (authCode s)) in
  match r with
  | Err err => ret ("", Some err)
  | Ok code => ret (code, None)
  end.

Section methods.

Variable hasher : bcrypt.t.

(** Login handles user login. *)
Definition Login (s : AuthService) (username password : string)
    : M (result LoginResponse) :=
  let* r := UserRepoI.GetByUsername (userRepo s) username in
  match r with
  | Err _ => ret (Err ErrAccountNotFound)
  | Ok user =>
      match bcrypt.CompareHashAndPassword hasher (u_Password user) password with
      | Some _ => ret (Err ErrBadCredentials)
      | None =>
          let* (accessToken, err) := generateAccessToken s in
          match err with
          | Some err => ret (Err err)
          | None =>
              let* r := TokenRepoI.CreateAccessToken (tokenRepo s) (u_ID user) accessToken in
              match r with
              | Err err => ret (Err err)
              | Ok _ => ret (Ok (mkLoginResponse (u_ID user) accessToken))
              end
          end
      end
  end.

(** Register handles user registration. *)
Definition Register (s : AuthService) (username password : string)
    : M (option error) :=
  let* r := UserRepoI.GetByUsername (userRepo s) username in
  match r with
  | Ok _ => ret (Some ErrAccountAlreadyExists)
  | Err _ =>
      let* r := bcrypt.GenerateFromPassword hasher password bcrypt.DefaultCost in
      match r with
      | Err err => ret (Some err)
      | Ok hashedPassword =>
          let* r := UserRepoI.Create (userRepo s) username hashedPassword in
          match r with
          | Err err => ret (Some err)
          | Ok _ => ret None
          end
      end
  end.

End methods.

(** Logout handles user logout. *)
Definition Logout (s : AuthService) (accessToken : string) : M (option error) :=
  let* r := TokenRepoI.GetAccessTokenByToken (tokenRepo s) accessToken in
  match r with
  | Err _ => ret (Some ErrTokenNotFound)
  | Ok token =>
      let* err := TokenRepoI.DeleteAccessToken (tokenRepo s) (at_ID token) in
      match err with
      | Some err => ret (Some err)
      | None => ret None
      end
  end.

(** GenerateAuthCode generates an authentication code for a user.  The
    insertion into the cache is left to a goroutine. *)
Definition GenerateAuthCode (s : AuthService) (userID : Z) : M (string * option error) :=
  let* (code, err) := generateRandomCode s in
  match err with
  | Some err => ret ("", Some err)
  | None =>
      let* _ := go (go_SetAuthCode code userID) in
      ret (code, None)
  end.

(** What a process is after a goroutine has run: still running, or
    brought down by a panic that nothing recovers. *)
Inductive process : Type :=
  | Running (w : World)
  | Panicked.

(** The body of the goroutine of [GenerateAuthCode]:
    [err := s.authCodes.Set(ctx, code, userID, s.authCode.TTL)], then
    [log.Error(..., slog.String("error", err.Error()))], whose argument
    calls [Error] on [err] whatever [err] is. *)
Definition run (s : AuthService) (g : goroutine) (w : World) : process :=
  match g with
  | go_SetAuthCode code userID =>
      let (err, w') := RedisRepository.Set_ (authCodes s) code userID (TTL (authCode s)) w in
      match Error_method err with
      | Some _ => Running w'
      | None => Panicked
      end
  end.

(** The scheduler lets the oldest pending goroutine run. *)
Definition schedule (s : AuthService) (w : World) : process :=
  match goroutines w with
  | [] => Running w
  | g :: gs => run s g (with_goroutines gs w)
  end.

(** Verify verifies an authentication code. *)
Definition Verify (s : AuthService) (userID : Z) (code : string) : M (bool * option error) :=
  let* (tgUserID, err) := RedisRepository.Get (authCodes s) code 0 in
  match err with
  | Some err =>
      if errors.Is err ErrCacheNotFound
      then ret (false, Some ErrVerificationFailed)
      else ret (false, Some err)
  | None =>
      let compare (tgConn : TgConnection) : M (bool * option error) :=
        if decide (tgUserID ≠ tg_TgUserID tgConn)
        then ret (false, Some ErrVerificationFailed)
        else
          let* (_, err) := RedisRepository.Del (authCodes s) code in
          match err with
          | Some err => ret (false, Some err)
          | None => ret (true, None)
          end in
      let* r := TgConnectionRepoI.GetByUserID (tgConn s) userID in
      match r with
      | Ok tgConn => compare tgConn
      | Err err =>
          if errors.Is err ErrTgConnNotFound
          then
            let* r := TgConnectionRepoI.Create (tgConn s) userID tgUserID in
            match r with
            | Err _ => ret (false, Some ErrVerificationFailed)
            | Ok tgConn => compare tgConn
            end
          else ret (false, Some ErrVerificationFailed)
      end
  end.

(** GenerateServiceToken generates a service token for a service. *)
Definition GenerateServiceToken (s : AuthService) (serviceName : string)
    : M (string * option error) :=
  let* r := TokenRepoI.GetServiceTokenByServiceName (tokenRepo s) serviceName in
  match r with
  | Ok existingToken => ret (st_Token existingToken, None)
  | Err _ =>
      let* (serviceToken, err) := generateServiceToken s in
      match err with
      | Some err => ret ("", Some err)
      | None =>
          let* r := TokenRepoI.CreateServiceToken (tokenRepo s) serviceName serviceToken in
          match r with
          | Err err => ret ("", Some err)
          | Ok _ => ret (serviceToken, None)
          end
      end
  end.

(** CheckAccessToken validates an access token and returns the associated
    user ID. *)
Definition CheckAccessToken (s : AuthService) (accessToken : string)
    : M (Z * option error) :=
  let* r := TokenRepoI.GetAccessTokenByToken (tokenRepo s) accessToken in
  match r with
  | Err _ => ret (0, Some ErrTokenNotFound)
  | Ok token => ret (at_UserID token, None)
  end.

(** CheckServiceToken validates a service token. *)
Definition CheckServiceToken (s : AuthService) (serviceToken : string)
    : M (bool * option error) :=
  let* r := TokenRepoI.GetServiceTokenByToken (tokenRepo s) serviceToken in
  match r with
  | Err _ => ret (false, None)
  | Ok _ => ret (true, None)
  end.

(** GetRole gets the role of a user. *)
Definition GetRole (s : AuthService) (userID : Z) : M (string * option error) :=
  let* r := UserRepoI.GetByID (userRepo s) userID in
  match r with
  | Err _ => ret ("", Some ErrAccountNotFound)
  | Ok user => ret (u_Role user, None)
  end.

(** SetRole sets the role of a user. *)
Definition SetRole (s : AuthService) (userID : Z) (role : string) : M (option error) :=
  let* r := RoleRepoI.GetByTitle (roleRepo s) role in
  match r with
  | Err _ => ret (Some ErrInvalidRole)
  | Ok roleEntity =>
      let* r := UserRepoI.GetByID (userRepo s) userID in
      match r with
      | Err _ => ret (Some ErrAccountNotFound)
      | Ok _ =>
          let* err := UserRepoI.UpdateUserRole (userRepo s) userID (r_ID roleEntity) in
          match err with
          | Some err => ret (Some err)
          | None => ret None
          end
      end
  end.

End usecase.

(** ** internal/app: the wiring of [Run] *)

Module app.

Import usecase.

Definition userRepo : UserRepoI.t :=
  UserRepoI.mk postgres.UserRepository.GetByID postgres.UserRepository.GetByUsername
    postgres.UserRepository.Create postgres.UserRepository.UpdateUserRole.

Definition roleRepo : RoleRepoI.t :=
  RoleRepoI.mk postgres.RoleRepository.GetByTitle.

Definition tokenRepo : TokenRepoI.t :=
  TokenRepoI.mk postgres.TokenRepository.CreateServiceToken
    postgres.TokenRepository.GetServiceTokenByServiceName
    postgres.TokenRepository.GetServiceTokenByToken
    postgres.TokenRepository.CreateAccessToken
    postgres.TokenRepository.GetAccessTokenByToken
    postgres.TokenRepository.DeleteAccessToken.

Definition tgConnRepo : TgConnectionRepoI.t :=
  TgConnectionRepoI.mk postgres.TgConnectionRepository.Create
    postgres.TgConnectionRepository.GetByUserID.

Definition redisRepo : RedisRepository.t :=
  RedisRepository.mk redisrepo.RedisRepository.Set_ redisrepo.RedisRepository.Del
    redisrepo.RedisRepository.Get.

(** [usecase.NewAuthService(log, userRepo, roleRepo, tokenRepo, tgConnRepo,
    redisRepo, entity.AuthCode(cfg.AuthCode))]. *)
Definition auth (cfg : AuthCode) : AuthService :=
  NewAuthService userRepo roleRepo tokenRepo tgConnRepo redisRepo cfg.

(** The defaults of [config.AuthCodeConfig]. *)
Definition defaultAuthCode : AuthCode := mkAuthCode 6 300.

End app.

(** ** internal/controller/grpc: the access boundary *)

Module codes.

(** The codes of [google.golang.org/grpc/codes] that the handlers use. *)
Inductive Code : Type :=
  | InvalidArgument
  | NotFound
  | AlreadyExists
  | Unauthenticated
  | Internal.

#[global] Instance Code_eq_dec : EqDecision Code.
Proof. solve_decision. Defined.

End codes.

Module controller.

Import usecase.

(** What a handler returns: the response, or [status.Error(code, msg)].
    The request and response messages are generated from the protocol
    description, which is not part of the sources; a handler is given the
    fields of the request it reads as arguments and returns the fields of
    the response it fills.  The conversions between [int64] and [int] are
    the identity. *)
Inductive reply (A : Type) : Type :=
  | Response (a : A)
  | Status (code : codes.Code) (msg : string).
Arguments Response {A} a.
Arguments Status {A} code msg.

Section serverAPI.

Variable hasher : bcrypt.t.

(** The [auth] field of [serverAPI]. *)
Variable auth : AuthService.

(** Login implements the login functionality; the response is
    [(Id, AccessToken)]. *)
Definition Login (Username Password : string) : M (reply (Z * string)) :=
  if decide (Username = "" ∨ Password = "")
  then ret (Status codes.InvalidArgument "username and password are required")
  else
    let* r := usecase.Login hasher auth Username Password in
    match r with
    | Err err =>
        if errors.Is err ErrAccountNotFound
        then ret (Status codes.NotFound "account not found")
        else if errors.Is err ErrBadCredentials
        then ret (Status codes.Unauthenticated "invalid credentials")
        else ret (Status codes.Internal "internal server error")
    | Ok resp => ret (Response (lr_ID resp, lr_Token resp))
    end.

(** Register implements the registration functionality; the response is
    [Success]. *)
Definition Register (Username Password : string) : M (reply bool) :=
  if decide (Username = "" ∨ Password = "")
  then ret (Status codes.InvalidArgument "username and password are required")
  else
    let* err := usecase.Register hasher auth Username Password in
    match err with
    | Some err =>
        if errors.Is err ErrAccountAlreadyExists
        then ret (Status codes.AlreadyExists "account already exists")
        else ret (Status codes.Internal "internal server error")
    | None => ret (Response true)
    end.

(** Logout implements the logout functionality; the response is
    [Success]. *)
Definition Logout (AccessToken : string) : M (reply bool) :=
  if decide (AccessToken = "")
  then ret (Status codes.InvalidArgument "access token is required")
  else
    let* err := usecase.Logout auth AccessToken in
    match err with
    | Some err =>
        if errors.Is err ErrTokenNotFound
        then ret (Status codes.NotFound "token not found")
        else ret (Status codes.Internal "internal server error")
    | None => ret (Response true)
    end.

(** GenerateAuthCode implements the auth code generation functionality;
    the response is [Code]. *)
Definition GenerateAuthCode (UserId : Z) : M (reply string) :=
  if decide (UserId = 0)
  then ret (Status codes.InvalidArgument "user ID is required")
  else
    let* (code, err) := usecase.GenerateAuthCode auth UserId in
    match err with
    | Some _ => ret (Status codes.Internal "internal server error")
    | None => ret (Response code)
    end.

(** Verify implements the verification functionality; the response is
    [Verified]. *)
Definition Verify (UserId : Z) (Code : string) : M (reply bool) :=
  if decide (Code = "")
  then ret (Status codes.InvalidArgument "code is required")
  else
    let* (verified, err) := usecase.Verify auth UserId Code in
    match err with
    | Some err =>
        if errors.Is err ErrVerificationFailed
        then ret (Status codes.InvalidArgument "verification failed")
        else ret (Status codes.Internal "internal server error")
    | None => ret (Response verified)
    end.

(** GenerateServiceToken implements the service token generation
    functionality; the response is [Token]. *)
Definition GenerateServiceToken (ServiceName : string) : M (reply string) :=
  if decide (ServiceName = "")
  then ret (Status codes.InvalidArgument "service name is required")
  else
    let* (token, err) := usecase.GenerateServiceToken auth ServiceName in
    match err with
    | Some _ => ret (Status codes.Internal "internal server error")
    | None => ret (Response token)
    end.

(** GetRole implements the get role functionality; the response is
    [Role]. *)
Definition GetRole (UserId : Z) : M (reply string) :=
  if decide (UserId = 0)
  then ret (Status codes.InvalidArgument "user ID is required")
  else
    let* (role, err) := usecase.GetRole auth UserId in
    match err with
    | Some _ => ret (Status codes.Internal "internal server error")
    | None => ret (Response role)
    end.

(** SetRole implements the set role functionality; the response is
    [Success]. *)
Definition SetRole (UserId : Z) (Role : string) : M (reply bool) :=
  if decide (UserId = 0 ∨ Role = "")
  then ret (Status codes.InvalidArgument "user ID and role are required")
  else
    let* err := usecase.SetRole auth UserId Role in
    match err with
    | Some err =>
        if errors.Is err ErrInvalidRole
        then ret (Status codes.InvalidArgument "invalid role")
        else if errors.Is err ErrAccountNotFound
        then ret (Status codes.NotFound "user not found")
        else ret (Status codes.Internal "internal server error")
    | None => ret (Response true)
    end.

(** CheckAccessToken validates an access token and returns the associated
    user ID; the response is [UserId]. *)
Definition CheckAccessToken (AccessToken : string) : M (reply Z) :=
  if decide (AccessToken = "")
  then ret (Status codes.InvalidArgument "access token is required")
  else
    let* (userID, err) := usecase.CheckAccessToken auth AccessToken in
    match err with
    | Some err =>
        if errors.Is err ErrTokenNotFound
        then ret (Status codes.NotFound "access token not found")
        else ret (Status codes.Internal "internal server error")
    | None => ret (Response userID)
    end.

(** CheckServiceToken validates a service token; the response is
    [Valid]. *)
Definition CheckServiceToken (ServiceToken : string) : M (reply bool) :=
  if decide (ServiceToken = "")
  then ret (Status codes.InvalidArgument "service token is required")
  else
    let* (valid, err) := usecase.CheckServiceToken auth ServiceToken in
    match err with
    | Some _ => ret (Status codes.Internal "internal server error")
    | None => ret (Response valid)
    end.

End serverAPI.

End controller.

(** ** Vocabulary of the properties *)

(** The fault, if any, that meets the [i]-th command sent from [w] on. *)
Definition slot (i : nat) (w : World) : option string :=
  default None (faults w !! i).

(** The world once the next command has gone to its store: the schedule
    of faults has moved on by one slot. *)
Definition sent (w : World) : World := with_faults (tail (faults w)) w.

(** The secondary-identity id that a lookup of [code] recovers from the
    cache, when the code is there, has not expired, and decodes. *)
Definition cached (code : string) (w : World) : option Z :=
  match redis.entry_of code w with
  | Some e =>
      match json.Unmarshal e.1 0 with
      | (v, None) => Some v
      | (_, Some _) => None
      end
  | None => None
  end.

(** The first link of an account, as [SELECT ... WHERE user_id = $1]
    finds it. *)
Definition link_of (userID : Z) (w : World) : option TgConnection :=
  head (filter (λ r, tg_UserID r = userID) (telegram_connection (db w))).

(** An account with this username exists, and its role is one of the
    roles of the store. *)
Definition account_exists (username : string) (d : DB) : Prop :=
  ∃ a r, a ∈ account d ∧ a_username a = username ∧
         r ∈ role d ∧ a_role_id a = r_ID r.

(** [a] is the one account of its username, and its role is one of the
    roles of the store. *)
Definition the_account (a : account_row) (d : DB) : Prop :=
  a ∈ account d ∧
  (∃ r, r ∈ role d ∧ a_role_id a = r_ID r) ∧
  (∀ a', a' ∈ account d → a_username a' = a_username a → a' = a).

(** The cases in which [Verify userID code] is to fail.  The lookup of the
    code is the first command sent, the lookup of the link the second, and
    the creation of a link, where it comes to that, the third. *)

(** The cache answers, and the code is absent or has expired. *)
Definition code_missing (code : string) (w : World) : Prop :=
  slot 0 w = None ∧ redis.entry_of code w = None.

(** The cache answers, and the code is there and decodes to [v]. *)
Definition code_recovered (code : string) (v : Z) (w : World) : Prop :=
  slot 0 w = None ∧ cached code w = Some v.

(** The store answers that the account has no link, and the creation of
    one fails: on a fault, or because the secondary identity [v] is
    already linked to another account. *)
Definition link_creation_fails (userID v : Z) (w : World) : Prop :=
  slot 1 w = None ∧ link_of userID w = None ∧
  (is_Some (slot 2 w) ∨
   Exists (λ r, tg_TgUserID r = v) (telegram_connection (db w))).

(** The store answers with a link of the account whose secondary-identity
    id is not [v]. *)
Definition link_mismatch (userID v : Z) (w : World) : Prop :=
  slot 1 w = None ∧
  ∃ tgConn, link_of userID w = Some tgConn ∧ tg_TgUserID tgConn ≠ v.

(** The lookup of the link meets a fault of the store. *)
Definition link_lookup_fault (w : World) : Prop := is_Some (slot 1 w).

(** The tail of [Verify] with the repositories of the application, once
    the link is at hand: the comparison of the ids and the deletion of the
    code. *)
Definition compare_and_delete (code : string) (tgUserID : Z) (tgConn : TgConnection)
    : M (bool * option error) :=
  if decide (tgUserID ≠ tg_TgUserID tgConn)
  then ret (false, Some ErrVerificationFailed)
  else
    let* (_, err) := redisrepo.RedisRepository.Del code in
    match err with
    | Some err => ret (false, Some err)
    | None => ret (true, None)
    end.

(** Every character of [s] passes [p]. *)
Fixpoint all_chars (p : ascii → bool) (s : string) : bool :=
  match s with
  | EmptyString => true
  | String c s' => p c && all_chars p s'
  end.

(** A digit of lower-case hexadecimal. *)
Definition hex_digit (c : ascii) : bool :=
  json.is_digit c || ((97 <=? N_of_ascii c)%N && (N_of_ascii c <=? 102)%N).

(** The byte that two digits of hexadecimal stand for. *)
Definition byte_of_digits (hi lo : ascii) : N :=
  let value (c : ascii) : N :=
    if json.is_digit c then (N_of_ascii c - 48)%N else (N_of_ascii c - 87)%N in
  (16 * value hi + value lo)%N.

(** A value of Go's 64-bit [int]. *)
Definition in_int64 (v : Z) : Prop := - 2 ^ 63 ≤ v < 2 ^ 63.

(** The capability contract of the hashing: a password fits the digest
    made from it. *)
Definition hasher_sound (h : bcrypt.t) : Prop :=
  ∀ password cost salt,
    bcrypt.CompareHashAndPassword h (bcrypt.hash h password cost salt) password = None.

(** [id] is a key of [role], and of [token]. *)
Definition role_ids_unique (d : DB) : Prop :=
  ∀ r r', r ∈ role d → r' ∈ role d → r_ID r = r_ID r' → r = r'.

Definition token_ids_unique (d : DB) : Prop :=
  ∀ t t', t ∈ token d → t' ∈ token d → at_ID t = at_ID t' → t = t'.

(** An account with this id is in the store, with a role of the store. *)
Definition account_with_id (id : Z) (d : DB) : Prop :=
  ∃ a r, a ∈ account d ∧ a_id a = id ∧ r ∈ role d ∧ a_role_id a = r_ID r.

(** From [w] to [w'] the relational store has changed by the links [l]
    added to [telegram_connection], and by nothing else in its tables. *)
Definition links_added (l : list TgConnection) (w w' : World) : Prop :=
  role (db w') = role (db w) ∧
  account (db w') = account (db w) ∧
  token (db w') = token (db w) ∧
  service_token (db w') = service_token (db w) ∧
  telegram_connection (db w') = telegram_connection (db w) ++ l.

(** A store and a world to run the service in: the two roles, one
    account, one session, one service token, one link (of account 7, to
    the secondary identity 555), and two codes in the cache. *)
Module sample.

Definition hasher : bcrypt.t :=
  bcrypt.mk (fun password _ _ => "$2a$10$" +:+ password)
    (fun hashedPassword password =>
       if decide (hashedPassword = "$2a$10$" +:+ password) then None
       else Some (errorString "crypto/bcrypt: hashedPassword is not the hash of the given password")).

Definition alice : account_row := mkAccountRow 42 "alice" "$2a$10$secret12" 1 10 10.

Definition store : DB :=
  mkDB [mkRole 1 "user" 0 0; mkRole 2 "admin" 0 0] 2
       [alice] 42
       [mkAccessToken 1 7 "00ff" 30 30] 1
       [mkSerivceToken 1 "svcB" "c0de" 5 5] 1
       [mkTgConnection 1 7 555 20 20] 1.

Definition random : list ascii := (λ i, ascii_of_nat (i * 7 + 3)) <$> seq 0 64.

Definition world : World :=
  mkWorld store
    (<["271828" := ("555", Some 400)]> {["483920" := ("999", Some 400)]})
    100 random [] [].

Definition auth : usecase.AuthService := app.auth app.defaultAuthCode.

End sample.

(** ** Running the drivers *)

Import usecase.

(** The methods of the repositories are run through the lemmas below, not
    by unfolding. *)
Arguments postgres.UserRepository.Create : simpl never.
Arguments postgres.UserRepository.GetByID : simpl never.
Arguments postgres.UserRepository.GetByUsername : simpl never.
Arguments postgres.UserRepository.UpdateUserRole : simpl never.
Arguments postgres.RoleRepository.GetByTitle : simpl never.
Arguments postgres.TokenRepository.CreateServiceToken : simpl never.
Arguments postgres.TokenRepository.GetServiceTokenByServiceName : simpl never.
Arguments postgres.TokenRepository.GetServiceTokenByToken : simpl never.
Arguments postgres.TokenRepository.CreateAccessToken : simpl never.
Arguments postgres.TokenRepository.GetAccessTokenByToken : simpl never.
Arguments postgres.TokenRepository.DeleteAccessToken : simpl never.
Arguments postgres.TgConnectionRepository.Create : simpl never.
Arguments postgres.TgConnectionRepository.GetByUserID : simpl never.
Arguments redisrepo.RedisRepository.Set_ : simpl never.
Arguments redisrepo.RedisRepository.Get : simpl never.
Arguments redisrepo.RedisRepository.Del : simpl never.

Lemma with_db_id (w : World) : with_db (db w) w = w.
Proof. by destruct w. Qed.

Lemma with_faults_id (w : World) : with_faults (faults w) w = w.
Proof. by destruct w. Qed.

Lemma next_fault_quiet (w : World) :
  faults w = [] → next_fault w = (None, w).
Proof. unfold next_fault. by intros ->. Qed.

Lemma next_fault_fails (w : World) (msg : string) (fs : list (option string)) :
  faults w = Some msg :: fs → next_fault w = (Some msg, with_faults fs w).
Proof. unfold next_fault. by intros ->. Qed.

Lemma next_fault_passes (w : World) (fs : list (option string)) :
  faults w = None :: fs → next_fault w = (None, with_faults fs w).
Proof. unfold next_fault. by intros ->. Qed.

(** A [SELECT] that meets no fault returns its first row and leaves the
    world as it is. *)
Lemma QueryRow_Scan_select {R : Type} (rows : DB → list R) (w : World) :
  faults w = [] →
  pgx.QueryRow_Scan (λ d, (Ok (rows d), d)) w =
  (match rows (db w) with
   | [] => Err pgx_ErrNoRows
   | x :: _ => Ok x
   end, w).
Proof.
  intros Hf. unfold pgx.QueryRow_Scan, bind.
  rewrite (next_fault_quiet _ Hf). by rewrite with_db_id.
Qed.

(** A command that meets a fault fails with the driver's message. *)
Lemma QueryRow_Scan_fault {R : Type} (q : pgx.query R) (w : World)
    (msg : string) (fs : list (option string)) :
  faults w = Some msg :: fs →
  pgx.QueryRow_Scan q w = (Err (errorString msg), with_faults fs w).
Proof.
  intros Hf. unfold pgx.QueryRow_Scan, bind. by rewrite (next_fault_fails _ _ _ Hf).
Qed.

(** ** The token checks *)

Lemma GetServiceTokenByToken_quiet (tok : string) (w : World) :
  faults w = [] →
  postgres.TokenRepository.GetServiceTokenByToken tok w =
  (match filter (λ r, st_Token r = tok) (service_token (db w)) with
   | [] => Err (Errorf_wrap "repositories.TokenRepository.GetServiceTokenByToken" pgx_ErrNoRows)
   | r :: _ => Ok r
   end, w).
Proof.
  intros Hf. unfold postgres.TokenRepository.GetServiceTokenByToken, bind.
  unfold sql.select_service_token_by_token.
  rewrite (QueryRow_Scan_select _ _ Hf).
  by destruct (filter _ _).
Qed.

Lemma GetAccessTokenByToken_quiet (tok : string) (w : World) :
  faults w = [] →
  postgres.TokenRepository.GetAccessTokenByToken tok w =
  (match filter (λ r, at_Token r = tok) (token (db w)) with
   | [] => Err (Errorf_wrap "repositories.TokenRepository.GetAccessTokenByToken" pgx_ErrNoRows)
   | r :: _ => Ok r
   end, w).
Proof.
  intros Hf. unfold postgres.TokenRepository.GetAccessTokenByToken, bind.
  unfold sql.select_token_by_access_token.
  rewrite (QueryRow_Scan_select _ _ Hf).
  by destruct (filter _ _).
Qed.

(** Whatever the token repository does, [CheckServiceToken] has no error
    to report: a lookup that fails, for whatever reason, is [false]. *)
Lemma CheckServiceToken_run (s : AuthService) (serviceToken : string) (w : World) :
  CheckServiceToken s serviceToken w =
  let (r, w') := TokenRepoI.GetServiceTokenByToken (tokenRepo s) serviceToken w in
  (match r with Ok _ => true | Err _ => false end, None, w').
Proof.
  unfold CheckServiceToken, bind.
  destruct (TokenRepoI.GetServiceTokenByToken _ _ _) as [[?|?] ?]; reflexivity.
Qed.

(** C10.  [CheckServiceToken] never returns a non-nil error: for every
    service (every implementation of the token repository), every token
    and every world, the error returned is nil, and the boolean is [true]
    exactly when the lookup returned a row; every failure of the lookup,
    not-found or a fault of the store, comes out as [false]. *)
Theorem CheckServiceToken_error_nil (s : AuthService) (serviceToken : string) (w : World) :
  (CheckServiceToken s serviceToken w).1 =
  (match (TokenRepoI.GetServiceTokenByToken (tokenRepo s) serviceToken w).1 with
   | Ok _ => true
   | Err _ => false
   end, None).
Proof.
  rewrite CheckServiceToken_run.
  by destruct (TokenRepoI.GetServiceTokenByToken _ _ _) as [[?|?] ?].
Qed.

(** With the repositories of the application, a fault of the store during
    the lookup is reported as [false] with a nil error. *)
Lemma CheckServiceToken_fault (cfg : AuthCode) (serviceToken : string) (w : World)
    (msg : string) (fs : list (option string)) :
  faults w = Some msg :: fs →
  CheckServiceToken (app.auth cfg) serviceToken w = (false, None, with_faults fs w).
Proof.
  intros Hf. rewrite CheckServiceToken_run. cbn.
  unfold postgres.TokenRepository.GetServiceTokenByToken, bind.
  by rewrite (QueryRow_Scan_fault _ _ _ _ Hf).
Qed.

(** C6.  With the store answering, [CheckServiceToken] is [true] exactly
    when a row of [service_token] carries the token, and reports absence
    as [false] with a nil error; [CheckAccessToken] returns the account id
    of the row of [token] that carries the token, and reports absence as
    the error [ErrTokenNotFound]. *)
Theorem CheckServiceToken_CheckAccessToken_asymmetry
    (cfg : AuthCode) (tok : string) (w : World) :
  faults w = [] →
  CheckServiceToken (app.auth cfg) tok w =
    (bool_decide (Exists (λ r, st_Token r = tok) (service_token (db w))), None, w) ∧
  CheckAccessToken (app.auth cfg) tok w =
    (match filter (λ r, at_Token r = tok) (token (db w)) with
     | [] => (0, Some ErrTokenNotFound)
     | r :: _ => (at_UserID r, None)
     end, w).
Proof.
  intros Hf. split.
  - rewrite CheckServiceToken_run. cbn.
    rewrite (GetServiceTokenByToken_quiet _ _ Hf).
    destruct (filter _ _) as [|r l] eqn:E.
    + rewrite bool_decide_eq_false_2; [done|].
      intros Hex. apply Exists_exists in Hex as (x & Hx & Hp).
      assert (x ∈ filter (λ r, st_Token r = tok) (service_token (db w))) as Hin.
      { by apply list_elem_of_filter. }
      rewrite E in Hin. by apply not_elem_of_nil in Hin.
    + rewrite bool_decide_eq_true_2; [done|].
      assert (r ∈ filter (λ r, st_Token r = tok) (service_token (db w))) as Hin.
      { rewrite E. left. }
      apply list_elem_of_filter in Hin as [Hp Hin].
      apply Exists_exists. by exists r.
  - unfold CheckAccessToken, bind. cbn.
    rewrite (GetAccessTokenByToken_quiet _ _ Hf).
    by destruct (filter _ _).
Qed.

Lemma CheckServiceToken_CheckAccessToken_asymmetry_witness :
  faults sample.world = [] ∧
  CheckServiceToken sample.auth "nobody" sample.world = (false, None, sample.world) ∧
  CheckAccessToken sample.auth "nobody" sample.world =
    (0, Some ErrTokenNotFound, sample.world).
Proof.
  split; [reflexivity|].
  exact (CheckServiceToken_CheckAccessToken_asymmetry
           app.defaultAuthCode "nobody" sample.world eq_refl).
Defined.

(** ** The goroutine of [GenerateAuthCode] *)

(** The goroutine brings the process down exactly when the write to the
    cache succeeds: [err] is then nil and [err.Error()] panics. *)
Lemma run_Panicked_iff (s : AuthService) (code : string) (userID : Z) (w : World) :
  run s (go_SetAuthCode code userID) w = Panicked ↔
  (RedisRepository.Set_ (authCodes s) code userID (TTL (authCode s)) w).1 = None.
Proof.
  unfold run.
  destruct (RedisRepository.Set_ _ _ _ _ _) as [[e|] w']; cbn; split; done.
Qed.

(** The write of the application's cache repository succeeds whenever the
    store answers. *)
Lemma Set_quiet (key : string) (value expTime : Z) (w : World) :
  faults w = [] →
  (redisrepo.RedisRepository.Set_ key value expTime w).1 = None.
Proof.
  intros Hf. unfold redisrepo.RedisRepository.Set_, redis.Set_, bind.
  by rewrite (next_fault_quiet _ Hf).
Qed.

Lemma run_Panicked_quiet (cfg : AuthCode) (g : goroutine) (w : World) :
  faults w = [] → run (app.auth cfg) g w = Panicked.
Proof.
  intros Hf. destruct g as [code userID].
  apply run_Panicked_iff. cbn. by apply Set_quiet.
Qed.

(** C1, at a failing input.  In the sample world, whose store answers,
    [GenerateAuthCode] for account 42 returns the code 318642 and a nil
    error and leaves one goroutine behind; when that goroutine runs, the
    write to the cache succeeds and the process panics. *)
Theorem GenerateAuthCode_goroutine_panics :
  let (r, w') := GenerateAuthCode sample.auth 42 sample.world in
  r = ("318642", None) ∧
  goroutines w' = [go_SetAuthCode "318642" 42] ∧
  schedule sample.auth w' = Panicked.
Proof. vm_compute. by repeat split. Qed.

(** When the write fails instead, the goroutine logs the error and ends. *)
Lemma GenerateAuthCode_goroutine_survives_fault :
  let (r, w') := GenerateAuthCode sample.auth 42
                   (with_faults [Some "i/o timeout"] sample.world) in
  r = ("318642", None) ∧
  match schedule sample.auth w' with
  | Running w'' => cached "318642" w'' = None
  | Panicked => False
  end.
Proof. vm_compute. by split. Qed.

(** ** Accounts *)

Lemma account_join_role_elem (d : DB) (u : User) :
  u ∈ sql.account_join_role d ↔
  ∃ a r, a ∈ account d ∧ r ∈ role d ∧ a_role_id a = r_ID r ∧
         u = mkUser (a_id a) (a_username a) (a_password a) (r_Title r)
               (a_created_at a) (a_updated_at a).
Proof.
  unfold sql.account_join_role. rewrite list_elem_of_bind. split.
  - intros (a & Hu & Ha). apply list_elem_of_bind in Hu as (r & Hu & Hr).
    apply list_elem_of_filter in Hr as [Hid Hr].
    apply list_elem_of_singleton in Hu. by exists a, r.
  - intros (a & r & Ha & Hr & Hid & ->). exists a. split; [|done].
    apply list_elem_of_bind. exists r. split; [by apply list_elem_of_singleton|].
    by apply list_elem_of_filter.
Qed.

(** A filter that keeps a member of the list keeps a first row. *)
Lemma filter_keeps {A : Type} (P : A → Prop) `{!∀ x, Decision (P x)}
    (l : list A) (x : A) :
  x ∈ l → P x → ∃ y k, filter P l = y :: k.
Proof.
  intros Hin HP.
  assert (x ∈ filter P l) as Hx by by apply list_elem_of_filter.
  destruct (filter P l) as [|y k]; [by apply not_elem_of_nil in Hx|by exists y, k].
Qed.

(** The first row of a filter is a member of the list that passes. *)
Lemma filter_first {A : Type} (P : A → Prop) `{!∀ x, Decision (P x)}
    (l k : list A) (y : A) :
  filter P l = y :: k → P y ∧ y ∈ l.
Proof.
  intros E. apply (list_elem_of_filter P l y). rewrite E. left.
Qed.

Lemma GetByUsername_quiet (username : string) (w : World) :
  faults w = [] →
  postgres.UserRepository.GetByUsername username w =
  (match filter (λ u, u_Username u = username) (sql.account_join_role (db w)) with
   | [] => Err (Errorf_wrap "repositories.UserRepository.GetByUsername" pgx_ErrNoRows)
   | u :: _ => Ok u
   end, w).
Proof.
  intros Hf. unfold postgres.UserRepository.GetByUsername, bind.
  unfold sql.select_user_by_username.
  rewrite (QueryRow_Scan_select _ _ Hf).
  by destruct (filter _ _).
Qed.

Lemma account_exists_visible (username : string) (d : DB) :
  account_exists username d →
  ∃ u k, filter (λ u, u_Username u = username) (sql.account_join_role d) = u :: k.
Proof.
  intros (a & r & Ha & Hname & Hr & Hid).
  eapply (filter_keeps _ _ (mkUser (a_id a) (a_username a) (a_password a)
                              (r_Title r) (a_created_at a) (a_updated_at a))).
  - apply account_join_role_elem. by exists a, r.
  - done.
Qed.

(** The lookup of [Register] finds the account, and nothing else is
    done. *)
Lemma Register_taken (hasher : bcrypt.t) (cfg : AuthCode)
    (username password : string) (w : World) :
  faults w = [] →
  account_exists username (db w) →
  Register hasher (app.auth cfg) username password w =
    (Some ErrAccountAlreadyExists, w).
Proof.
  intros Hf Hex. unfold Register, bind. cbn.
  rewrite (GetByUsername_quiet _ _ Hf).
  by destruct (account_exists_visible _ _ Hex) as (u & k & ->).
Qed.

(** C8.  With the store answering, [Register] for a username that an
    account already has fails with [ErrAccountAlreadyExists] and leaves
    the world, and so the rows of [account], as they were. *)
Theorem Register_AlreadyExists (hasher : bcrypt.t) (cfg : AuthCode)
    (username password : string) (w : World) :
  faults w = [] →
  account_exists username (db w) →
  Register hasher (app.auth cfg) username password w =
    (Some ErrAccountAlreadyExists, w).
Proof. apply Register_taken. Qed.

Lemma Register_AlreadyExists_witness :
  faults sample.world = [] ∧
  account_exists "alice" (db sample.world) ∧
  Register sample.hasher sample.auth "alice" "secret12" sample.world =
    (Some ErrAccountAlreadyExists, sample.world).
Proof.
  assert (account_exists "alice" (db sample.world)) as Hex.
  { exists sample.alice, (mkRole 1 "user" 0 0).
    repeat split; left. }
  split; [reflexivity|]. split; [exact Hex|].
  exact (Register_AlreadyExists sample.hasher app.defaultAuthCode
           "alice" "secret12" sample.world eq_refl Hex).
Defined.

(** ** Sessions *)

Lemma filter_none {A : Type} (P : A → Prop) `{!∀ x, Decision (P x)} (l : list A) :
  Forall (λ x, ¬ P x) l → filter P l = [].
Proof.
  induction 1 as [|x l Hx _ IH]; [done|].
  by rewrite filter_cons_False.
Qed.

Lemma filter_all {A : Type} (P : A → Prop) `{!∀ x, Decision (P x)} (l : list A) :
  Forall P l → filter P l = l.
Proof.
  induction 1 as [|x l Hx _ IH]; [done|].
  rewrite filter_cons_True by done. by rewrite IH.
Qed.

Lemma the_account_first (a : account_row) (d : DB) :
  the_account a d →
  ∃ u k, filter (λ u, u_Username u = a_username a) (sql.account_join_role d) = u :: k ∧
         u_ID u = a_id a ∧ u_Password u = a_password a.
Proof.
  intros (Ha & (r & Hr & Hid) & Huniq).
  destruct (account_exists_visible (a_username a) d) as (u & k & E).
  { by exists a, r. }
  exists u, k. split; [done|].
  apply filter_first in E as [Hname Hu].
  apply account_join_role_elem in Hu as (a' & r' & Ha' & _ & _ & ->).
  cbn in Hname. by rewrite (Huniq a' Ha' Hname).
Qed.

Lemma generateAccessToken_run (s : AuthService) (w : World) :
  (32 ≤ length (entropy w))%nat →
  generateAccessToken s w =
  (hex.EncodeToString (take 32 (entropy w)), None,
   with_entropy (drop 32 (entropy w)) w).
Proof.
  intros He. unfold generateAccessToken, rand.Read, bind.
  by rewrite decide_True.
Qed.

Lemma CreateAccessToken_quiet (userID : Z) (tok : string) (w : World) :
  faults w = [] →
  postgres.TokenRepository.CreateAccessToken userID tok w =
  let row := mkAccessToken (token_id_seq (db w) + 1) userID tok (now w) (now w) in
  (Ok row,
   with_db (sql.set_token (token (db w) ++ [row]) (token_id_seq (db w) + 1) (db w)) w).
Proof.
  intros Hf. unfold postgres.TokenRepository.CreateAccessToken, bind, time_Now.
  unfold pgx.QueryRow_Scan, bind. by rewrite (next_fault_quiet _ Hf).
Qed.

Lemma DeleteAccessToken_quiet (id : Z) (w : World) :
  faults w = [] →
  Exists (λ r, at_ID r = id) (token (db w)) →
  postgres.TokenRepository.DeleteAccessToken id w =
  (None,
   with_db (sql.set_token (filter (λ r, at_ID r ≠ id) (token (db w)))
              (token_id_seq (db w)) (db w)) w).
Proof.
  intros Hf Hex. unfold postgres.TokenRepository.DeleteAccessToken, bind.
  unfold pgx.Exec, bind. rewrite (next_fault_quiet _ Hf). cbn.
  apply Exists_exists in Hex as (x & Hx & Hid).
  destruct (filter_keeps (λ r, at_ID r = id) _ x Hx Hid) as (y & k & ->).
  done.
Qed.

(** C7.  Let [a] be the account of its username, [password] fit its
    digest, the store answer, and [crypto/rand] deliver 32 bytes whose hex
    encoding is the token of no row of [token].  Then [Login] succeeds
    with the id of [a] and that token and adds one row to [token];
    [CheckAccessToken] with the token returns the id of [a]; [Logout] with
    the token succeeds and takes exactly that row away again (the ids of
    [token] coming from its sequence); after it [CheckAccessToken] and a
    second [Logout] both fail with [ErrTokenNotFound]. *)
Theorem Login_CheckAccessToken_Logout (hasher : bcrypt.t) (cfg : AuthCode)
    (a : account_row) (password : string) (w : World) :
  faults w = [] →
  the_account a (db w) →
  bcrypt.CompareHashAndPassword hasher (a_password a) password = None →
  (32 ≤ length (entropy w))%nat →
  Forall (λ r, at_Token r ≠ hex.EncodeToString (take 32 (entropy w))) (token (db w)) →
  Forall (λ r, at_ID r ≤ token_id_seq (db w)) (token (db w)) →
  let accessToken := hex.EncodeToString (take 32 (entropy w)) in
  let row := mkAccessToken (token_id_seq (db w) + 1) (a_id a) accessToken (now w) (now w) in
  ∃ w1 w2,
    Login hasher (app.auth cfg) (a_username a) password w =
      (Ok (mkLoginResponse (a_id a) accessToken), w1) ∧
    token (db w1) = token (db w) ++ [row] ∧
    CheckAccessToken (app.auth cfg) accessToken w1 = (a_id a, None, w1) ∧
    Logout (app.auth cfg) accessToken w1 = (None, w2) ∧
    token (db w2) = token (db w) ∧
    CheckAccessToken (app.auth cfg) accessToken w2 = (0, Some ErrTokenNotFound, w2) ∧
    Logout (app.auth cfg) accessToken w2 = (Some ErrTokenNotFound, w2).
Proof.
  intros Hf Ha Hpw He Hfresh Hpk accessToken row.
  destruct (the_account_first _ _ Ha) as (u & k & Eu & Hid & Hdigest).
  set (w0 := with_entropy (drop 32 (entropy w)) w).
  set (w1 := with_db (sql.set_token (token (db w) ++ [row])
                        (token_id_seq (db w) + 1) (db w)) w0).
  set (w2 := with_db (sql.set_token (token (db w)) (token_id_seq (db w1)) (db w1)) w1).
  assert (filter (λ r, at_Token r = accessToken) (token (db w1)) = [row]) as Efind.
  { cbn. rewrite filter_app, (filter_none _ _ Hfresh).
    by rewrite filter_cons_True. }
  assert (filter (λ r, at_ID r ≠ at_ID row) (token (db w1)) = token (db w)) as Edel.
  { cbn. rewrite filter_app, filter_cons_False by (cbn; intros H; by apply H).
    cbn. rewrite app_nil_r. apply filter_all.
    eapply Forall_impl; [exact Hpk|]. cbn. intros r Hr. lia. }
  assert (filter (λ r, at_Token r = accessToken) (token (db w2)) = []) as Egone.
  { cbn. by apply filter_none. }
  exists w1, w2. repeat split.
  - unfold Login, bind. cbn.
    rewrite (GetByUsername_quiet _ _ Hf), Eu, Hdigest, Hpw.
    rewrite (generateAccessToken_run _ _ He). cbv beta iota.
    rewrite (CreateAccessToken_quiet _ _ w0 Hf). cbn. by rewrite Hid.
  - unfold CheckAccessToken, bind. cbn.
    rewrite (GetAccessTokenByToken_quiet _ w1 Hf). by rewrite Efind.
  - unfold Logout, bind. cbn.
    rewrite (GetAccessTokenByToken_quiet _ w1 Hf). rewrite Efind.
    rewrite (DeleteAccessToken_quiet _ w1 Hf).
    + by rewrite Edel.
    + apply Exists_exists. exists row. split; [|done].
      cbn. apply elem_of_app. right. left.
  - unfold CheckAccessToken, bind. cbn.
    rewrite (GetAccessTokenByToken_quiet _ w2 Hf). by rewrite Egone.
  - unfold Logout, bind. cbn.
    rewrite (GetAccessTokenByToken_quiet _ w2 Hf). by rewrite Egone.
Qed.

Lemma sample_the_account : the_account sample.alice (db sample.world).
Proof.
  split; [left|]. split.
  - exists (mkRole 1 "user" 0 0). split; [left|done].
  - intros a' Ha' _. by apply list_elem_of_singleton in Ha'.
Qed.

Lemma Login_CheckAccessToken_Logout_witness :
  let accessToken :=
    "030a11181f262d343b424950575e656c737a81888f969da4abb2b9c0c7ced5dc" in
  ∃ w1 w2,
    Login sample.hasher sample.auth "alice" "secret12" sample.world =
      (Ok (mkLoginResponse 42 accessToken), w1) ∧
    token (db w1) = token (db sample.world) ++ [mkAccessToken 2 42 accessToken 100 100] ∧
    CheckAccessToken sample.auth accessToken w1 = (42, None, w1) ∧
    Logout sample.auth accessToken w1 = (None, w2) ∧
    token (db w2) = token (db sample.world) ∧
    CheckAccessToken sample.auth accessToken w2 = (0, Some ErrTokenNotFound, w2) ∧
    Logout sample.auth accessToken w2 = (Some ErrTokenNotFound, w2).
Proof.
  refine (Login_CheckAccessToken_Logout sample.hasher app.defaultAuthCode
            sample.alice "secret12" sample.world eq_refl sample_the_account
            eq_refl _ _ _).
  - cbn. lia.
  - repeat constructor. vm_compute. discriminate.
  - repeat constructor. vm_compute. discriminate.
Defined.

(** ** Service tokens *)

Lemma filter_nil_not_Exists {A : Type} (P : A → Prop) `{!∀ x, Decision (P x)}
    (l : list A) :
  filter P l = [] → ¬ Exists P l.
Proof.
  intros E Hex. apply Exists_exists in Hex as (x & Hx & HP).
  by apply (filter_nil_not_elem_of P l x E HP).
Qed.

Lemma GetServiceTokenByServiceName_quiet (serviceName : string) (w : World) :
  faults w = [] →
  postgres.TokenRepository.GetServiceTokenByServiceName serviceName w =
  (match filter (λ r, st_ServiceName r = serviceName) (service_token (db w)) with
   | [] => Err (Errorf_wrap "repositories.TokenRepository.GetServiceTokenByServiceName"
                  pgx_ErrNoRows)
   | r :: _ => Ok r
   end, w).
Proof.
  intros Hf. unfold postgres.TokenRepository.GetServiceTokenByServiceName, bind.
  unfold sql.select_service_token_by_service_name.
  rewrite (QueryRow_Scan_select _ _ Hf).
  by destruct (filter _ _).
Qed.

Lemma generateServiceToken_run (s : AuthService) (w : World) :
  (32 ≤ length (entropy w))%nat →
  generateServiceToken s w =
  (hex.EncodeToString (take 32 (entropy w)), None,
   with_entropy (drop 32 (entropy w)) w).
Proof.
  intros He. unfold generateServiceToken, rand.Read, bind.
  by rewrite decide_True.
Qed.

Lemma CreateServiceToken_quiet (serviceName tok : string) (w : World) :
  faults w = [] →
  ¬ Exists (λ r, st_ServiceName r = serviceName) (service_token (db w)) →
  postgres.TokenRepository.CreateServiceToken serviceName tok w =
  let row := mkSerivceToken (service_token_id_seq (db w) + 1) serviceName tok
               (now w) (now w) in
  (Ok row,
   with_db (sql.set_service_token (service_token (db w) ++ [row])
              (service_token_id_seq (db w) + 1) (db w)) w).
Proof.
  intros Hf Hnew. unfold postgres.TokenRepository.CreateServiceToken, bind, time_Now.
  unfold pgx.QueryRow_Scan, bind. rewrite (next_fault_quiet _ Hf).
  unfold sql.insert_service_token. by rewrite decide_False.
Qed.

(** C5.  With the store answering, and [crypto/rand] delivering where a
    token has to be generated, [GenerateServiceToken] succeeds, and a
    second call returns the same token and changes nothing.  When a row of
    [service_token] has the service name, the token returned is that of
    the row and the world is left as it was; otherwise the token is the
    hex encoding of 32 fresh bytes and one row holding it is added for the
    service name. *)
Theorem GenerateServiceToken_idempotent (cfg : AuthCode) (serviceName : string)
    (w : World) :
  faults w = [] →
  (filter (λ r, st_ServiceName r = serviceName) (service_token (db w)) = [] →
   (32 ≤ length (entropy w))%nat) →
  ∃ tok w1,
    GenerateServiceToken (app.auth cfg) serviceName w = (tok, None, w1) ∧
    GenerateServiceToken (app.auth cfg) serviceName w1 = (tok, None, w1) ∧
    match filter (λ r, st_ServiceName r = serviceName) (service_token (db w)) with
    | existingToken :: _ => tok = st_Token existingToken ∧ w1 = w
    | [] =>
        tok = hex.EncodeToString (take 32 (entropy w)) ∧
        service_token (db w1) =
          service_token (db w) ++
          [mkSerivceToken (service_token_id_seq (db w) + 1) serviceName tok
             (now w) (now w)]
    end.
Proof.
  intros Hf He.
  destruct (filter (λ r, st_ServiceName r = serviceName) (service_token (db w)))
    as [|existingToken l] eqn:E.
  - specialize (He eq_refl).
    set (tok := hex.EncodeToString (take 32 (entropy w))).
    set (w0 := with_entropy (drop 32 (entropy w)) w).
    set (row := mkSerivceToken (service_token_id_seq (db w) + 1) serviceName tok
                  (now w) (now w)).
    set (w1 := with_db (sql.set_service_token (service_token (db w) ++ [row])
                          (service_token_id_seq (db w) + 1) (db w)) w0).
    exists tok, w1. repeat split.
    + unfold GenerateServiceToken, bind. cbn.
      rewrite (GetServiceTokenByServiceName_quiet _ _ Hf), E.
      rewrite (generateServiceToken_run _ _ He). cbv beta iota.
      rewrite (CreateServiceToken_quiet _ _ w0 Hf); [done|].
      exact (filter_nil_not_Exists _ _ E).
    + unfold GenerateServiceToken, bind. cbn.
      rewrite (GetServiceTokenByServiceName_quiet _ w1 Hf). cbn.
      rewrite filter_app, E. by rewrite filter_cons_True.
  - exists (st_Token existingToken), w.
    assert (GenerateServiceToken (app.auth cfg) serviceName w =
            (st_Token existingToken, None, w)) as Hrun.
    { unfold GenerateServiceToken, bind. cbn.
      by rewrite (GetServiceTokenByServiceName_quiet _ _ Hf), E. }
    by repeat split.
Qed.

Lemma GenerateServiceToken_idempotent_witness :
  ∃ tok w1,
    GenerateServiceToken sample.auth "svcA" sample.world = (tok, None, w1) ∧
    GenerateServiceToken sample.auth "svcA" w1 = (tok, None, w1) ∧
    tok = "030a11181f262d343b424950575e656c737a81888f969da4abb2b9c0c7ced5dc" ∧
    service_token (db w1) =
      service_token (db sample.world) ++ [mkSerivceToken 2 "svcA" tok 100 100].
Proof.
  refine (GenerateServiceToken_idempotent app.defaultAuthCode "svcA" sample.world
            eq_refl _).
  intros _. cbn. lia.
Defined.

(** The service that has its token already gets it back, whatever is left
    of the entropy. *)
Example GenerateServiceToken_existing :
  GenerateServiceToken sample.auth "svcB" (with_entropy [] sample.world) =
  ("c0de", None, with_entropy [] sample.world).
Proof. vm_compute. reflexivity. Qed.

(** ** The commands of the verification handshake *)

Lemma next_fault_run (w : World) : next_fault w = (slot 0 w, sent w).
Proof.
  unfold next_fault, slot, sent. destruct w as [d r t e f g]. cbn.
  by destruct f.
Qed.

Lemma slot_sent (i : nat) (w : World) : slot i (sent w) = slot (S i) w.
Proof. unfold slot, sent. cbn. by destruct (faults w). Qed.

Lemma sent_quiet (w : World) : faults w = [] → sent w = w.
Proof. unfold sent. intros Hf. rewrite Hf. cbn. rewrite <- Hf. apply with_faults_id. Qed.

Lemma slot_quiet (i : nat) (w : World) : faults w = [] → slot i w = None.
Proof. unfold slot. by intros ->. Qed.

Lemma Get_run (key : string) (old : Z) (w : World) :
  redisrepo.RedisRepository.Get key old w =
  (match slot 0 w with
   | Some msg =>
       (old, Some (Errorf_wrap "repositories.RedisRepository.Get" (errorString msg)))
   | None =>
       match redis.entry_of key w with
       | Some e => json.Unmarshal e.1 old
       | None => (old, Some ErrCacheNotFound)
       end
   end, sent w).
Proof.
  unfold redisrepo.RedisRepository.Get, redis.Get, bind.
  rewrite next_fault_run. destruct (slot 0 w); [done|].
  change (redis.entry_of key (sent w)) with (redis.entry_of key w).
  by destruct (redis.entry_of key w).
Qed.

Lemma Del_run (key : string) (w : World) :
  redisrepo.RedisRepository.Del key w =
  match slot 0 w with
  | Some msg =>
      (0, Some (Errorf_wrap "repositories.RedisRepository.Del" (errorString msg)),
       sent w)
  | None =>
      (match redis.entry_of key w with Some _ => 1 | None => 0 end, None,
       with_rdb (delete key (rdb w)) (sent w))
  end.
Proof.
  unfold redisrepo.RedisRepository.Del, redis.Del, bind.
  rewrite next_fault_run. destruct (slot 0 w); [done|].
  change (redis.entry_of key (sent w)) with (redis.entry_of key w).
  by destruct (redis.entry_of key w).
Qed.

Lemma GetByUserID_run (userID : Z) (w : World) :
  postgres.TgConnectionRepository.GetByUserID userID w =
  (match slot 0 w with
   | Some msg =>
       Err (Errorf_wrap "repositories.TgConnectionRepository.GetByUserID"
              (errorString msg))
   | None =>
       match link_of userID w with
       | Some tgConn => Ok tgConn
       | None => Err ErrTgConnNotFound
       end
   end, sent w).
Proof.
  unfold postgres.TgConnectionRepository.GetByUserID, pgx.QueryRow_Scan, bind.
  rewrite next_fault_run. destruct (slot 0 w); [done|].
  unfold sql.select_telegram_connection_by_user_id, link_of.
  rewrite (with_db_id (sent w)). change (db (sent w)) with (db w).
  by destruct (filter _ _).
Qed.

(** A link that [Create] returns binds the account to the secondary
    identity it was given. *)
Lemma Create_Ok (userID tgUserID : Z) (w w' : World) (tgConn : TgConnection) :
  postgres.TgConnectionRepository.Create userID tgUserID w = (Ok tgConn, w') →
  tg_UserID tgConn = userID ∧ tg_TgUserID tgConn = tgUserID.
Proof.
  unfold postgres.TgConnectionRepository.Create, pgx.QueryRow_Scan, bind, time_Now.
  rewrite next_fault_run. destruct (slot 0 w); [done|].
  unfold sql.insert_telegram_connection.
  repeat case_decide; cbn; intros [= <- _]; done.
Qed.

(** ** Verify *)

(** An error of the cache repository's [Del] is a wrapped driver error. *)
Lemma Del_error (key : string) (w w' : World) (n : Z) (e : error) :
  redisrepo.RedisRepository.Del key w = (n, Some e, w') →
  ∃ msg, e = Errorf_wrap "repositories.RedisRepository.Del" (errorString msg).
Proof.
  rewrite Del_run. destruct (slot 0 w) as [msg|]; intros [= _ <- _]. by exists msg.
Qed.

(** After a [Del] without error the key is gone. *)
Lemma Del_Ok (key : string) (w w' : World) (n : Z) :
  redisrepo.RedisRepository.Del key w = (n, None, w') →
  rdb w' !! key = None.
Proof.
  rewrite Del_run. destruct (slot 0 w) as [msg|]; intros [= _ <-].
  cbn. apply lookup_delete_eq.
Qed.

Lemma Verify_found (cfg : AuthCode) (userID : Z) (code : string)
    (w w1 w2 : World) (v : Z) (tgConn : TgConnection) :
  redisrepo.RedisRepository.Get code 0 w = (v, None, w1) →
  postgres.TgConnectionRepository.GetByUserID userID w1 = (Ok tgConn, w2) →
  Verify (app.auth cfg) userID code w = compare_and_delete code v tgConn w2.
Proof.
  intros HG HL. unfold Verify, bind. cbn. by rewrite HG, HL.
Qed.

Lemma Verify_created (cfg : AuthCode) (userID : Z) (code : string)
    (w w1 w1' w2 : World) (v : Z) (tgConn : TgConnection) :
  redisrepo.RedisRepository.Get code 0 w = (v, None, w1) →
  postgres.TgConnectionRepository.GetByUserID userID w1 = (Err ErrTgConnNotFound, w1') →
  postgres.TgConnectionRepository.Create userID v w1' = (Ok tgConn, w2) →
  Verify (app.auth cfg) userID code w = compare_and_delete code v tgConn w2.
Proof.
  intros HG HL HC. unfold Verify, bind. cbn. rewrite HG, HL. cbn.
  rewrite bool_decide_eq_true_2 by done. cbn. by rewrite HC.
Qed.

Lemma compare_and_delete_match (code : string) (v : Z) (tgConn : TgConnection)
    (w : World) :
  tg_TgUserID tgConn = v →
  ∃ n err w',
    redisrepo.RedisRepository.Del code w = (n, err, w') ∧
    compare_and_delete code v tgConn w = (bool_decide (err = None), err, w') ∧
    err ≠ Some ErrVerificationFailed.
Proof.
  intros Hv. unfold compare_and_delete, bind.
  rewrite decide_False by (intros H; by apply H).
  destruct (redisrepo.RedisRepository.Del code w) as [[n [e|]] w'] eqn:ED.
  - exists n, (Some e), w'. repeat split.
    apply Del_error in ED as [msg ->]. done.
  - by exists n, None, w'.
Qed.

(** C9.  When the code is recovered from the cache, the store answers
    that the account has no link, and the creation of the link succeeds,
    the link created holds the id recovered from the cache; [Verify] goes
    on to delete the code and returns what the deletion gives: [true] with
    a nil error, or [false] with the error of the deletion, which is not
    [ErrVerificationFailed]. *)
Theorem Verify_created_link_matches (cfg : AuthCode) (userID : Z) (code : string)
    (w w1 w1' w2 : World) (v : Z) (tgConn : TgConnection) :
  redisrepo.RedisRepository.Get code 0 w = (v, None, w1) →
  postgres.TgConnectionRepository.GetByUserID userID w1 = (Err ErrTgConnNotFound, w1') →
  postgres.TgConnectionRepository.Create userID v w1' = (Ok tgConn, w2) →
  tg_TgUserID tgConn = v ∧
  ∃ n err w3,
    redisrepo.RedisRepository.Del code w2 = (n, err, w3) ∧
    Verify (app.auth cfg) userID code w = (bool_decide (err = None), err, w3) ∧
    err ≠ Some ErrVerificationFailed.
Proof.
  intros HG HL HC.
  destruct (Create_Ok _ _ _ _ _ HC) as [_ Hv]. split; [done|].
  rewrite (Verify_created cfg _ _ _ _ _ _ _ _ HG HL HC).
  by apply compare_and_delete_match.
Qed.

Lemma Verify_created_link_matches_witness :
  tg_TgUserID (mkTgConnection 2 42 999 100 100) = 999 ∧
  ∃ n err w3,
    redisrepo.RedisRepository.Del "483920"
      (postgres.TgConnectionRepository.Create 42 999 sample.world).2 = (n, err, w3) ∧
    Verify sample.auth 42 "483920" sample.world = (bool_decide (err = None), err, w3) ∧
    err ≠ Some ErrVerificationFailed.
Proof.
  apply (Verify_created_link_matches app.defaultAuthCode 42 "483920"
           sample.world sample.world sample.world
           (postgres.TgConnectionRepository.Create 42 999 sample.world).2
           999 (mkTgConnection 2 42 999 100 100)).
  - vm_compute. reflexivity.
  - vm_compute. reflexivity.
  - vm_compute. reflexivity.
Defined.

(** C4.  When the code is recovered from the cache and the link of the
    account, found or just created, holds the id recovered, but the
    deletion of the code fails, [Verify] returns [false] with the error
    of the deletion, and that error is not [ErrVerificationFailed], nor
    does it wrap it. *)
Theorem Verify_delete_failure (cfg : AuthCode) (userID : Z) (code : string)
    (w w1 w2 w3 : World) (v n : Z) (tgConn : TgConnection) (e : error) :
  redisrepo.RedisRepository.Get code 0 w = (v, None, w1) →
  (postgres.TgConnectionRepository.GetByUserID userID w1 = (Ok tgConn, w2) ∨
   ∃ w1',
     postgres.TgConnectionRepository.GetByUserID userID w1 =
       (Err ErrTgConnNotFound, w1') ∧
     postgres.TgConnectionRepository.Create userID v w1' = (Ok tgConn, w2)) →
  tg_TgUserID tgConn = v →
  redisrepo.RedisRepository.Del code w2 = (n, Some e, w3) →
  Verify (app.auth cfg) userID code w = (false, Some e, w3) ∧
  errors.Is e ErrVerificationFailed = false.
Proof.
  intros HG HL Hv HD.
  assert (Verify (app.auth cfg) userID code w = compare_and_delete code v tgConn w2)
    as ->.
  { destruct HL as [HL|(w1' & HL & HC)].
    - by apply (Verify_found cfg _ _ _ w1).
    - by apply (Verify_created cfg _ _ _ w1 w1'). }
  unfold compare_and_delete, bind.
  rewrite decide_False by (intros H; by apply H).
  rewrite HD. split; [done|].
  by apply Del_error in HD as [msg ->].
Qed.

Lemma Verify_delete_failure_witness :
  let w := with_faults [None; None; Some "i/o timeout"] sample.world in
  let e := Errorf_wrap "repositories.RedisRepository.Del" (errorString "i/o timeout") in
  Verify sample.auth 7 "271828" w = (false, Some e, sample.world) ∧
  errors.Is e ErrVerificationFailed = false.
Proof.
  intros w e.
  apply (Verify_delete_failure app.defaultAuthCode 7 "271828" w
           (with_faults [None; Some "i/o timeout"] sample.world)
           (with_faults [Some "i/o timeout"] sample.world)
           sample.world 555 0 (mkTgConnection 1 7 555 20 20) e).
  - vm_compute. reflexivity.
  - left. vm_compute. reflexivity.
  - reflexivity.
  - vm_compute. reflexivity.
Defined.

(** With the store answering, a code that is not in the cache fails
    verification. *)
Lemma Verify_absent (cfg : AuthCode) (userID : Z) (code : string) (w : World) :
  faults w = [] →
  rdb w !! code = None →
  Verify (app.auth cfg) userID code w = (false, Some ErrVerificationFailed, w).
Proof.
  intros Hf Hcode. unfold Verify, bind. cbn.
  rewrite Get_run, (slot_quiet _ _ Hf), (sent_quiet _ Hf).
  unfold redis.entry_of. by rewrite Hcode.
Qed.

Lemma compare_and_delete_true (code : string) (v : Z) (tgConn : TgConnection)
    (w w' : World) :
  compare_and_delete code v tgConn w = (true, None, w') →
  rdb w' !! code = None.
Proof.
  unfold compare_and_delete, bind. case_decide; [done|].
  destruct (redisrepo.RedisRepository.Del code w) as [[n [e|]] w''] eqn:ED; [done|].
  intros [= <-]. by apply Del_Ok in ED.
Qed.

(** C2.  When [Verify] returns [true], the code was in the cache and has
    been deleted from it; in any world whose cache is the one it left,
    with the store answering, a further [Verify] with that code, for any
    account, fails with [ErrVerificationFailed]. *)
Theorem Verify_single_use (cfg : AuthCode) (userID : Z) (code : string)
    (w w' : World) :
  Verify (app.auth cfg) userID code w = (true, None, w') →
  is_Some (cached code w) ∧
  rdb w' !! code = None ∧
  ∀ (userID' : Z) (w2 : World),
    rdb w2 = rdb w' → faults w2 = [] →
    Verify (app.auth cfg) userID' code w2 = (false, Some ErrVerificationFailed, w2).
Proof.
  intros HV.
  assert (is_Some (cached code w) ∧ rdb w' !! code = None) as [Hc Hgone].
  { destruct (redisrepo.RedisRepository.Get code 0 w) as [[v [e|]] w1] eqn:HG.
    { unfold Verify, bind in HV. cbn in HV. rewrite HG in HV.
      by destruct (errors.Is e ErrCacheNotFound). }
    assert (is_Some (cached code w)) as Hc.
    { rewrite Get_run in HG. unfold cached.
      destruct (slot 0 w); [done|]. destruct (redis.entry_of code w) as [en|]; [|done].
      destruct (json.Unmarshal en.1 0) as [v' [e'|]]; [done|]. by exists v'. }
    split; [done|].
    destruct (postgres.TgConnectionRepository.GetByUserID userID w1)
      as [[tgConn|e] w2] eqn:HL.
    { rewrite (Verify_found cfg _ _ _ _ _ _ _ HG HL) in HV.
      by apply compare_and_delete_true in HV. }
    rewrite GetByUserID_run in HL.
    destruct (slot 0 w1) as [msg|] eqn:Hs.
    { unfold Verify, bind in HV. cbn in HV. rewrite HG, GetByUserID_run, Hs in HV.
      done. }
    destruct (link_of userID w1) eqn:Hlink; [done|]. injection HL as <- <-.
    assert (postgres.TgConnectionRepository.GetByUserID userID w1 =
            (Err ErrTgConnNotFound, sent w1)) as HL.
    { by rewrite GetByUserID_run, Hs, Hlink. }
    destruct (postgres.TgConnectionRepository.Create userID v (sent w1))
      as [[tgConn|e] w2] eqn:HC.
    { rewrite (Verify_created cfg _ _ _ _ _ _ _ _ HG HL HC) in HV.
      by apply compare_and_delete_true in HV. }
    unfold Verify, bind in HV. cbn in HV. rewrite HG, HL in HV. cbn in HV.
    rewrite bool_decide_eq_true_2 in HV by done. cbn in HV. by rewrite HC in HV. }
  repeat split; [done..|].
  intros userID' w2 Hsame Hf. apply Verify_absent; [done|]. by rewrite Hsame.
Qed.

Lemma Verify_single_use_witness :
  let w' := (Verify sample.auth 42 "483920" sample.world).2 in
  is_Some (cached "483920" sample.world) ∧
  rdb w' !! "483920" = None ∧
  ∀ (userID' : Z) (w2 : World),
    rdb w2 = rdb w' → faults w2 = [] →
    Verify sample.auth userID' "483920" w2 = (false, Some ErrVerificationFailed, w2).
Proof.
  apply (Verify_single_use app.defaultAuthCode 42 "483920" sample.world).
  vm_compute. reflexivity.
Defined.

(** The scenario of the specification: account 42, code 483920 standing
    for the secondary identity 999. *)
Example Verify_scenario :
  let (r, w') := Verify sample.auth 42 "483920" sample.world in
  r = (true, None) ∧
  link_of 42 w' = Some (mkTgConnection 2 42 999 100 100) ∧
  (Verify sample.auth 42 "483920" w').1 = (false, Some ErrVerificationFailed).
Proof. vm_compute. by repeat split. Qed.

(** A code whose time has run out is as good as absent. *)
Example Verify_expired :
  (Verify sample.auth 42 "483920" (with_now 400 sample.world)).1 =
  (false, Some ErrVerificationFailed).
Proof. vm_compute. reflexivity. Qed.

(** *** When [Verify] fails with [ErrVerificationFailed] *)

Lemma Unmarshal_error (data : string) (old v : Z) (e : error) :
  json.Unmarshal data old = (v, Some e) → ∃ msg, e = errorString msg.
Proof.
  unfold json.Unmarshal. case_bool_decide; [done|].
  destruct (json.numeral data) as [z|].
  - destruct (_ && _); intros [= _ <-]; by eexists.
  - intros [= _ <-]. by eexists.
Qed.

Lemma link_of_sent (userID : Z) (w : World) : link_of userID (sent w) = link_of userID w.
Proof. reflexivity. Qed.

Lemma link_of_None (userID : Z) (w : World) :
  link_of userID w = None →
  ¬ Exists (λ r, tg_UserID r = userID) (telegram_connection (db w)).
Proof.
  unfold link_of. intros H. refine (filter_nil_not_Exists _ _ _).
  by destruct (filter _ _).
Qed.

Lemma Get_recovered (code : string) (v : Z) (w : World) :
  code_recovered code v w →
  redisrepo.RedisRepository.Get code 0 w = (v, None, sent w).
Proof.
  intros [Hs Hc]. rewrite Get_run, Hs. unfold cached in Hc.
  destruct (redis.entry_of code w) as [en|]; [|done].
  destruct (json.Unmarshal en.1 0) as [v' [e|]]; [done|]. by injection Hc as ->.
Qed.

(** The cache does not answer, or what it holds does not decode: the
    error is the driver's or the decoder's. *)
Lemma Verify_cache_error (cfg : AuthCode) (userID : Z) (code : string) (w : World) :
  ¬ code_missing code w →
  (∀ v, ¬ code_recovered code v w) →
  ∃ e, (Verify (app.auth cfg) userID code w).1 = (false, Some e) ∧
       errors.Is e ErrVerificationFailed = false.
Proof.
  intros Hm Hr. unfold Verify, bind. cbn. rewrite Get_run.
  unfold code_missing in Hm. unfold code_recovered, cached in Hr.
  destruct (slot 0 w) as [msg|]; [by eexists|].
  destruct (redis.entry_of code w) as [en|]; [|by destruct Hm].
  destruct (json.Unmarshal en.1 0) as [v [e|]] eqn:EU; [|by destruct (Hr v)].
  apply Unmarshal_error in EU as [msg ->]. by eexists.
Qed.

Lemma Verify_missing (cfg : AuthCode) (userID : Z) (code : string) (w : World) :
  code_missing code w →
  (Verify (app.auth cfg) userID code w).1 = (false, Some ErrVerificationFailed).
Proof.
  intros [Hs He]. unfold Verify, bind. cbn. by rewrite Get_run, Hs, He.
Qed.

Lemma Verify_link_lookup_fault (cfg : AuthCode) (userID : Z) (code : string)
    (w : World) (v : Z) :
  code_recovered code v w →
  link_lookup_fault w →
  (Verify (app.auth cfg) userID code w).1 = (false, Some ErrVerificationFailed).
Proof.
  intros HG [msg Hs]. unfold Verify, bind. cbn.
  rewrite (Get_recovered _ _ _ HG), GetByUserID_run, slot_sent, Hs. done.
Qed.

Lemma GetByUserID_found (userID : Z) (w : World) (tgConn : TgConnection) :
  slot 1 w = None → link_of userID w = Some tgConn →
  postgres.TgConnectionRepository.GetByUserID userID (sent w) =
    (Ok tgConn, sent (sent w)).
Proof.
  intros Hs Hl. by rewrite GetByUserID_run, slot_sent, Hs, link_of_sent, Hl.
Qed.

Lemma GetByUserID_none (userID : Z) (w : World) :
  slot 1 w = None → link_of userID w = None →
  postgres.TgConnectionRepository.GetByUserID userID (sent w) =
    (Err ErrTgConnNotFound, sent (sent w)).
Proof.
  intros Hs Hl. by rewrite GetByUserID_run, slot_sent, Hs, link_of_sent, Hl.
Qed.

(** The creation of a link succeeds exactly when the store answers and
    neither the account nor the secondary identity is linked yet. *)
Lemma Create_cases (userID tgUserID : Z) (w : World) :
  (slot 0 w = None ∧
   ¬ Exists (λ r, tg_UserID r = userID) (telegram_connection (db w)) ∧
   ¬ Exists (λ r, tg_TgUserID r = tgUserID) (telegram_connection (db w)) ∧
   ∃ tgConn w',
     postgres.TgConnectionRepository.Create userID tgUserID w = (Ok tgConn, w')) ∨
  ((is_Some (slot 0 w) ∨
    Exists (λ r, tg_UserID r = userID) (telegram_connection (db w)) ∨
    Exists (λ r, tg_TgUserID r = tgUserID) (telegram_connection (db w))) ∧
   ∃ e w',
     postgres.TgConnectionRepository.Create userID tgUserID w = (Err e, w')).
Proof.
  unfold postgres.TgConnectionRepository.Create, pgx.QueryRow_Scan, bind, time_Now.
  rewrite next_fault_run. destruct (slot 0 w) as [msg|].
  { right. split; [|by eexists _, _]. left. by exists msg. }
  unfold sql.insert_telegram_connection. change (db (sent w)) with (db w).
  repeat case_decide; cbn.
  - right. split; [|by eexists _, _]. right. by left.
  - right. split; [|by eexists _, _]. right. by right.
  - left. repeat split; [done..|]. by eexists _, _.
Qed.

Lemma compare_and_delete_VerificationFailed (code : string) (v : Z)
    (tgConn : TgConnection) (w : World) :
  (compare_and_delete code v tgConn w).1 = (false, Some ErrVerificationFailed) ↔
  tg_TgUserID tgConn ≠ v.
Proof.
  split.
  - intros HV Hv.
    destruct (compare_and_delete_match code v tgConn w Hv) as (n & err & w' & _ & E & Hne).
    rewrite E in HV. cbn in HV. apply Hne. by injection HV.
  - intros Hne. unfold compare_and_delete.
    rewrite decide_True; [done|]. intros H. by apply Hne.
Qed.

Lemma Verify_create_fails (cfg : AuthCode) (userID : Z) (code : string)
    (w w' : World) (v : Z) (e : error) :
  code_recovered code v w →
  slot 1 w = None → link_of userID w = None →
  postgres.TgConnectionRepository.Create userID v (sent (sent w)) = (Err e, w') →
  (Verify (app.auth cfg) userID code w).1 = (false, Some ErrVerificationFailed).
Proof.
  intros HG Hs Hl HC. unfold Verify, bind. cbn.
  rewrite (Get_recovered _ _ _ HG), (GetByUserID_none _ _ Hs Hl). cbn.
  rewrite bool_decide_eq_true_2 by done. cbn. by rewrite HC.
Qed.

(** The code is missing, or recovered, or the lookup yields an error. *)
Lemma code_cases (code : string) (w : World) :
  code_missing code w ∨ (∃ v, code_recovered code v w) ∨
  (¬ code_missing code w ∧ ∀ v, ¬ code_recovered code v w).
Proof.
  unfold code_missing, code_recovered.
  destruct (slot 0 w) as [msg|].
  { right. right. split; [by intros [? _]|by intros v [? _]]. }
  destruct (cached code w) as [v|] eqn:Hc.
  { right. left. by exists v. }
  destruct (redis.entry_of code w) as [en|] eqn:He.
  - right. right. split; [by intros [_ ?]|by intros v [_ ?]].
  - by left.
Qed.

(** C3, as the code has it.  [Verify] fails with [ErrVerificationFailed]
    in exactly four cases: the code is absent from the cache or has
    expired; or the code is recovered and the lookup of the account's link
    meets a fault of the store; or the account has no link and the
    creation of one fails; or the account has a link whose
    secondary-identity id is not the one recovered from the cache. *)
Theorem Verify_VerificationFailed_iff (cfg : AuthCode) (userID : Z) (code : string)
    (w : World) :
  (Verify (app.auth cfg) userID code w).1 = (false, Some ErrVerificationFailed) ↔
  code_missing code w ∨
  ∃ v, code_recovered code v w ∧
       (link_lookup_fault w ∨ link_creation_fails userID v w ∨ link_mismatch userID v w).
Proof.
  split.
  - intros HV.
    destruct (code_cases code w) as [Hm|[[v Hr]|[Hm Hr]]]; [by left| |].
    + right. exists v. split; [done|].
      destruct (slot 1 w) as [msg|] eqn:Hs; [left; by exists msg|].
      right. destruct (link_of userID w) as [tgConn|] eqn:Hl.
      * right. split; [done|]. exists tgConn. split; [done|].
        rewrite (Verify_found cfg _ _ _ _ _ _ _ (Get_recovered _ _ _ Hr)
                   (GetByUserID_found _ _ _ Hs Hl)) in HV.
        by apply compare_and_delete_VerificationFailed in HV.
      * left. split; [done|]. split; [done|].
        destruct (Create_cases userID v (sent (sent w)))
          as [(_ & _ & _ & tgConn & w' & HC)|[Hwhy _]].
        { rewrite (Verify_created cfg _ _ _ _ _ _ _ _ (Get_recovered _ _ _ Hr)
                     (GetByUserID_none _ _ Hs Hl) HC) in HV.
          apply compare_and_delete_VerificationFailed in HV.
          by destruct (Create_Ok _ _ _ _ _ HC) as [_ ?]. }
        rewrite !slot_sent in Hwhy. destruct Hwhy as [?|[Hu|?]]; [by left| |by right].
        by apply link_of_None in Hl.
    + destruct (Verify_cache_error cfg userID code w Hm Hr) as (e & E & His).
      rewrite E in HV. injection HV as ->. done.
  - intros [Hm|(v & Hr & [Hf|[(Hs & Hl & Hwhy)|(Hs & tgConn & Hl & Hne)]])].
    + by apply Verify_missing.
    + by apply (Verify_link_lookup_fault cfg _ _ _ v).
    + destruct (Create_cases userID v (sent (sent w)))
        as [(Hs2 & _ & Hfree & _)|[_ (e & w' & HC)]].
      * rewrite !slot_sent in Hs2. destruct Hwhy as [[msg Hmsg]|Htaken]; [|done].
        by rewrite Hs2 in Hmsg.
      * by apply (Verify_create_fails cfg _ _ _ w' v e).
    + rewrite (Verify_found cfg _ _ _ _ _ _ _ (Get_recovered _ _ _ Hr)
                 (GetByUserID_found _ _ _ Hs Hl)).
      by apply compare_and_delete_VerificationFailed.
Qed.

(** C3, as stated, leaves a case out.  Account 7 is linked to the
    secondary identity 555 and the code 271828 stands for 555, so that
    the code is there, the link exists and its id is the one of the
    cache; when the lookup of the link meets a fault, [Verify] fails with
    [ErrVerificationFailed] all the same. *)
Lemma Verify_fails_on_link_lookup_fault :
  let w := with_faults [None; Some "connection reset by peer"] sample.world in
  (Verify sample.auth 7 "271828" w).1 = (false, Some ErrVerificationFailed) ∧
  ¬ (code_missing "271828" w ∨
     ∃ v, code_recovered "271828" v w ∧
          (link_creation_fails 7 v w ∨ link_mismatch 7 v w)).
Proof.
  intros w. split; [by vm_compute|].
  intros [[_ Hm]|(v & [_ Hc] & [(_ & Hl & _)|(_ & tgConn & Hl & Hne)])].
  - vm_compute in Hm. discriminate.
  - vm_compute in Hl. discriminate.
  - vm_compute in Hc. vm_compute in Hl.
    injection Hc as <-. injection Hl as <-. by apply Hne.
Qed.

(** No other error that [Verify] returns is of the kind
    [ErrVerificationFailed]: an error for which [errors.Is] answers so is
    the sentinel itself. *)
Lemma Verify_error_kind (cfg : AuthCode) (userID : Z) (code : string)
    (w : World) (e : error) :
  (Verify (app.auth cfg) userID code w).1.2 = Some e →
  errors.Is e ErrVerificationFailed = true →
  e = ErrVerificationFailed.
Proof.
  intros HV His.
  assert (∀ tgConn v w2,
            (compare_and_delete code v tgConn w2).1.2 = Some e →
            e = ErrVerificationFailed) as Htail.
  { intros tgConn v w2. unfold compare_and_delete, bind.
    case_decide; [by intros [= <-]|].
    destruct (redisrepo.RedisRepository.Del code w2) as [[n [e'|]] w3] eqn:ED; [|done].
    intros [= ->]. apply Del_error in ED as [msg ->]. done. }
  destruct (code_cases code w) as [Hm|[[v Hr]|[Hm Hr]]].
  - rewrite (Verify_missing cfg _ _ _ Hm) in HV. by injection HV.
  - destruct (slot 1 w) as [msg|] eqn:Hs.
    { rewrite (Verify_link_lookup_fault cfg _ _ _ v Hr) in HV; [by injection HV|].
      by exists msg. }
    destruct (link_of userID w) as [tgConn|] eqn:Hl.
    { rewrite (Verify_found cfg _ _ _ _ _ _ _ (Get_recovered _ _ _ Hr)
                 (GetByUserID_found _ _ _ Hs Hl)) in HV.
      by apply Htail in HV. }
    destruct (Create_cases userID v (sent (sent w)))
      as [(_ & _ & _ & tgConn & w' & HC)|[_ (e' & w' & HC)]].
    + rewrite (Verify_created cfg _ _ _ _ _ _ _ _ (Get_recovered _ _ _ Hr)
                 (GetByUserID_none _ _ Hs Hl) HC) in HV.
      by apply Htail in HV.
    + rewrite (Verify_create_fails cfg _ _ _ w' v e' Hr Hs Hl HC) in HV.
      by injection HV.
  - destruct (Verify_cache_error cfg userID code w Hm Hr) as (e' & E & His').
    rewrite E in HV. injection HV as ->. by rewrite His in His'.
Qed.

(** *** Registering twice *)

(** An account that [Create] returns is in the store, with the role
    [user]. *)
Lemma UserRepository_Create_Ok (username password : string) (w w1 : World) (u : User) :
  postgres.UserRepository.Create username password w = (Ok u, w1) →
  account_exists username (db w1).
Proof.
  unfold postgres.UserRepository.Create, bind, time_Now.
  unfold pgx.QueryRow_Scan at 1. unfold bind.
  rewrite next_fault_run. destruct (slot 0 w) as [msg|]; [done|].
  unfold sql.select_role_id_by_title.
  destruct (filter (λ r, r_Title r = "user") (role (db (sent w)))) as [|r l] eqn:Er;
    [done|].
  cbn [fmap list_fmap take]. rewrite with_db_id.
  unfold pgx.QueryRow_Scan, bind.
  rewrite next_fault_run. destruct (slot 0 (sent w)) as [msg|]; [done|].
  unfold sql.insert_account. case_decide; [done|].
  intros [= _ <-]. apply filter_first in Er as [_ Hr].
  eexists _, r. cbn. split; [apply elem_of_app; right; left|]. done.
Qed.

(** After [Register] has succeeded for a username, [Register] for that
    username fails with [ErrAccountAlreadyExists] and changes nothing, the
    store answering. *)
Lemma Register_twice (hasher : bcrypt.t) (cfg : AuthCode)
    (username password password' : string) (w w1 : World) :
  Register hasher (app.auth cfg) username password w = (None, w1) →
  faults w1 = [] →
  Register hasher (app.auth cfg) username password' w1 =
    (Some ErrAccountAlreadyExists, w1).
Proof.
  intros HR Hf. apply Register_taken; [done|].
  unfold Register, bind in HR. cbn in HR.
  destruct (postgres.UserRepository.GetByUsername username w) as [[?|?] w0]; [done|].
  destruct (bcrypt.GenerateFromPassword hasher password bcrypt.DefaultCost w0)
    as [[hashedPassword|?] w0']; [|done].
  destruct (postgres.UserRepository.Create username hashedPassword w0')
    as [[u|?] w1'] eqn:HC; [|done].
  injection HR as <-. by apply UserRepository_Create_Ok in HC.
Qed.

Example Register_twice_sample :
  let w1 := (Register sample.hasher sample.auth "bob" "hunter22" sample.world).2 in
  (Register sample.hasher sample.auth "bob" "hunter22" sample.world).1 = None ∧
  length (account (db w1)) = 2%nat ∧
  Register sample.hasher sample.auth "bob" "hunter22" w1 =
    (Some ErrAccountAlreadyExists, w1).
Proof. vm_compute. by repeat split. Qed.

(** * Further properties of the service *)

(** ** The shape of tokens and codes *)

Lemma EncodeToString_length (src : list ascii) :
  String.length (hex.EncodeToString src) = (2 * length src)%nat.
Proof. induction src as [|b src IH]; [done|]. cbn. rewrite IH. lia. Qed.

Lemma hex_digits_of_byte (b : ascii) :
  hex_digit (hex.digit (N.shiftr (N_of_ascii b) 4)) = true ∧
  hex_digit (hex.digit (N.land (N_of_ascii b) 15)) = true.
Proof. destruct b as [[] [] [] [] [] [] [] []]; by vm_compute. Qed.

Lemma EncodeToString_hex (src : list ascii) :
  all_chars hex_digit (hex.EncodeToString src) = true.
Proof.
  induction src as [|b src IH]; [done|]. cbn.
  destruct (hex_digits_of_byte b) as [-> ->]. by rewrite IH.
Qed.

Lemma byte_of_digits_digit (b : ascii) :
  byte_of_digits (hex.digit (N.shiftr (N_of_ascii b) 4))
    (hex.digit (N.land (N_of_ascii b) 15)) = N_of_ascii b.
Proof. destruct b as [[] [] [] [] [] [] [] []]; by vm_compute. Qed.

(** X20.  [hex.EncodeToString] loses nothing: byte strings that encode to
    the same text are the same, so two tokens are equal only if the
    random bytes behind them are. *)
Theorem EncodeToString_inj (src1 src2 : list ascii) :
  hex.EncodeToString src1 = hex.EncodeToString src2 → src1 = src2.
Proof.
  revert src2. induction src1 as [|b1 src1 IH]; intros [|b2 src2]; try done.
  cbn. intros [= Hhi Hlo Hrest]. f_equal; [|by apply IH].
  rewrite <- (ascii_N_embedding b1), <- (ascii_N_embedding b2). f_equal.
  by rewrite <- (byte_of_digits_digit b1), <- (byte_of_digits_digit b2), Hhi, Hlo.
Qed.

Lemma EncodeToString_inj_witness :
  [ascii_of_nat 171; ascii_of_nat 7] = [ascii_of_nat 171; ascii_of_nat 7].
Proof. apply EncodeToString_inj. reflexivity. Defined.

Lemma generateAccessToken_Ok (s : AuthService) (w w' : World) (tok : string) :
  generateAccessToken s w = (tok, None, w') →
  String.length tok = 64%nat ∧ all_chars hex_digit tok = true.
Proof.
  unfold generateAccessToken, rand.Read, bind.
  case_decide; [|done]. intros [= <- _].
  rewrite EncodeToString_length, length_take. split; [lia|apply EncodeToString_hex].
Qed.

(** X1.  Whatever the repositories and the hashing are, a token that
    [Login] returns is 64 characters long, each a digit of lower-case
    hexadecimal. *)
Theorem Login_token_format (hasher : bcrypt.t) (s : AuthService)
    (username password : string) (w w' : World) (resp : LoginResponse) :
  Login hasher s username password w = (Ok resp, w') →
  String.length (lr_Token resp) = 64%nat ∧
  all_chars hex_digit (lr_Token resp) = true.
Proof.
  unfold Login, bind.
  destruct (UserRepoI.GetByUsername _ _ _) as [[user|?] w0]; [|done].
  destruct (bcrypt.CompareHashAndPassword _ _ _); [done|].
  destruct (generateAccessToken s w0) as [[tok [?|]] w1] eqn:Hgen; [done|].
  destruct (TokenRepoI.CreateAccessToken _ _ _ _) as [[?|?] w2]; [|done].
  intros [= <- _]. cbn. by apply generateAccessToken_Ok in Hgen.
Qed.

Lemma Login_token_format_witness :
  let resp := mkLoginResponse 42
                "030a11181f262d343b424950575e656c737a81888f969da4abb2b9c0c7ced5dc" in
  String.length (lr_Token resp) = 64%nat ∧
  all_chars hex_digit (lr_Token resp) = true.
Proof.
  apply (Login_token_format sample.hasher sample.auth "alice" "secret12"
           sample.world (Login sample.hasher sample.auth "alice" "secret12"
                           sample.world).2).
  vm_compute. reflexivity.
Defined.

Lemma Int10_from_range (e e' : list ascii) (v : Z) :
  rand.Int10_from e = Some (v, e') → 0 ≤ v < 10.
Proof.
  induction e as [|b e IH]; [done|]. cbn.
  destruct (Z.land (Z.of_N (N_of_ascii b)) 15 <? 10) eqn:E; [|done].
  intros [= <- _]. apply Z.ltb_lt in E. split; [|done].
  apply Z.land_nonneg. lia.
Qed.

Lemma digit_byte (num : Z) :
  0 ≤ num < 10 →
  json.is_digit (ascii_of_N (Z.to_N ((48 + num) mod 256))) = true.
Proof.
  intros H.
  assert (num = 0 ∨ num = 1 ∨ num = 2 ∨ num = 3 ∨ num = 4 ∨ num = 5 ∨
          num = 6 ∨ num = 7 ∨ num = 8 ∨ num = 9) as Hnum by lia.
  destruct Hnum as [->|[->|[->|[->|[->|[->|[->|[->|[->| ->]]]]]]]]]; reflexivity.
Qed.

(** The loop of [generateRandomCode] reads the entropy and nothing else,
    and what it returns is [n] decimal digits. *)
Lemma randomDigits_run (n : nat) (w : World) :
  ∃ r e, randomDigits n w = (r, with_entropy e w) ∧
         match r with
         | Ok code => String.length code = n ∧ all_chars json.is_digit code = true
         | Err _ => True
         end.
Proof.
  revert w. induction n as [|n IH]; intros w.
  { exists (Ok EmptyString), (entropy w). cbn. unfold ret. by destruct w. }
  cbn [randomDigits]. unfold bind, rand.Int10.
  destruct (rand.Int10_from (entropy w)) as [[num e1]|] eqn:E.
  - destruct (IH (with_entropy e1 w)) as (r & e2 & Hrun & Hr). rewrite Hrun.
    destruct r as [code|err].
    + exists (Ok (String (ascii_of_N (Z.to_N ((48 + num) mod 256))) code)), e2.
      split; [done|]. destruct Hr as [<- Hd]. split; [done|]. cbn.
      by rewrite (digit_byte _ (Int10_from_range _ _ _ E)), Hd.
    + by exists (Err err), e2.
  - by exists (Err (errorString "unexpected EOF")), [].
Qed.

(** X2.  Whatever the repositories are, [GenerateAuthCode] touches
    neither the relational store nor the cache.  When it succeeds, the
    code has the configured number of characters, all decimal digits,
    and exactly one goroutine is started, which carries that code and the
    account id; when it fails, the code returned is empty and no
    goroutine is started. *)
Theorem GenerateAuthCode_effects (s : AuthService) (userID : Z) (w : World) :
  let '(code, err, w') := GenerateAuthCode s userID w in
  db w' = db w ∧ rdb w' = rdb w ∧
  match err with
  | None =>
      String.length code = Length (authCode s) ∧
      all_chars json.is_digit code = true ∧
      goroutines w' = goroutines w ++ [go_SetAuthCode code userID]
  | Some _ => code = "" ∧ goroutines w' = goroutines w
  end.
Proof.
  unfold GenerateAuthCode, generateRandomCode, bind.
  destruct (randomDigits_run (Length (authCode s)) w) as (r & e & -> & Hr).
  destruct r as [code|err]; cbn; [|done].
  by destruct Hr as [-> ->].
Qed.

(** ** Login and registration *)

Lemma QueryRow_Scan_select_run {R : Type} (rows : DB → list R) (w : World) :
  pgx.QueryRow_Scan (λ d, (Ok (rows d), d)) w =
  (match slot 0 w with
   | Some msg => Err (errorString msg)
   | None =>
       match rows (db w) with
       | [] => Err pgx_ErrNoRows
       | x :: _ => Ok x
       end
   end, sent w).
Proof.
  unfold pgx.QueryRow_Scan, bind. rewrite next_fault_run.
  destruct (slot 0 w); [done|].
  by rewrite (with_db_id (sent w)).
Qed.

Lemma GetByUsername_run (username : string) (w : World) :
  postgres.UserRepository.GetByUsername username w =
  (match slot 0 w with
   | Some msg =>
       Err (Errorf_wrap "repositories.UserRepository.GetByUsername" (errorString msg))
   | None =>
       match filter (λ u, u_Username u = username) (sql.account_join_role (db w)) with
       | [] => Err (Errorf_wrap "repositories.UserRepository.GetByUsername" pgx_ErrNoRows)
       | u :: _ => Ok u
       end
   end, sent w).
Proof.
  unfold postgres.UserRepository.GetByUsername, bind, sql.select_user_by_username.
  rewrite QueryRow_Scan_select_run. destruct (slot 0 w); [done|].
  by destruct (filter _ _).
Qed.

Lemma no_account_invisible (username : string) (d : DB) :
  ¬ account_exists username d →
  filter (λ u, u_Username u = username) (sql.account_join_role d) = [].
Proof.
  intros Hno.
  destruct (filter (λ u, u_Username u = username) (sql.account_join_role d))
    as [|u k] eqn:E; [done|].
  apply filter_first in E as [Hname Hu].
  apply account_join_role_elem in Hu as (a & r & Ha & Hr & Hid & ->).
  destruct Hno. by exists a, r.
Qed.

(** X3.  When the lookup of the account meets a fault of the store, or no
    account has the username, [Login] fails with [ErrAccountNotFound]:
    the two are not told apart.  The store, the cache and the entropy are
    left as they were. *)
Theorem Login_unknown (hasher : bcrypt.t) (cfg : AuthCode)
    (username password : string) (w : World) :
  is_Some (slot 0 w) ∨ ¬ account_exists username (db w) →
  Login hasher (app.auth cfg) username password w = (Err ErrAccountNotFound, sent w).
Proof.
  intros Hwhy. unfold Login, bind. cbn. rewrite GetByUsername_run.
  destruct (slot 0 w) as [msg|]; [done|].
  destruct Hwhy as [[? [=]]|Hno]. by rewrite (no_account_invisible _ _ Hno).
Qed.

Lemma sample_no_bob : ¬ account_exists "bob" (db sample.world).
Proof.
  intros (a & r & Ha & Hname & _).
  apply list_elem_of_singleton in Ha as ->. discriminate.
Qed.

Lemma Login_unknown_witness :
  Login sample.hasher sample.auth "bob" "hunter22" sample.world =
    (Err ErrAccountNotFound, sample.world) ∧
  Login sample.hasher sample.auth "alice" "secret12"
    (with_faults [Some "connection refused"] sample.world) =
    (Err ErrAccountNotFound, sample.world).
Proof.
  split.
  - exact (Login_unknown sample.hasher app.defaultAuthCode "bob" "hunter22"
             sample.world (or_intror sample_no_bob)).
  - exact (Login_unknown sample.hasher app.defaultAuthCode "alice" "secret12"
             (with_faults [Some "connection refused"] sample.world)
             (or_introl (ex_intro _ "connection refused" eq_refl))).
Defined.

(** X4.  When the store answers and the password does not fit the digest
    of the account, [Login] fails with [ErrBadCredentials]; no token is
    generated and no row is added to [token]: the store, the cache and
    the entropy are left as they were. *)
Theorem Login_bad_password (hasher : bcrypt.t) (cfg : AuthCode)
    (a : account_row) (password : string) (w : World) (e : error) :
  slot 0 w = None →
  the_account a (db w) →
  bcrypt.CompareHashAndPassword hasher (a_password a) password = Some e →
  Login hasher (app.auth cfg) (a_username a) password w = (Err ErrBadCredentials, sent w).
Proof.
  intros Hs Ha Hpw. unfold Login, bind. cbn. rewrite GetByUsername_run, Hs.
  destruct (the_account_first _ _ Ha) as (u & k & -> & _ & ->). by rewrite Hpw.
Qed.

Lemma Login_bad_password_witness :
  Login sample.hasher sample.auth "alice" "secret13" sample.world =
    (Err ErrBadCredentials, sample.world).
Proof.
  exact (Login_bad_password sample.hasher app.defaultAuthCode sample.alice
           "secret13" sample.world _ eq_refl sample_the_account eq_refl).
Defined.

Lemma GenerateFromPassword_run (hasher : bcrypt.t) (password : string) (cost : Z)
    (w : World) :
  (String.length password ≤ 72)%nat →
  (16 ≤ length (entropy w))%nat →
  bcrypt.GenerateFromPassword hasher password cost w =
  (Ok (bcrypt.hash hasher password cost (take 16 (entropy w))),
   with_entropy (drop 16 (entropy w)) w).
Proof.
  intros Hlen He. unfold bcrypt.GenerateFromPassword, rand.Read, bind.
  rewrite decide_False by lia. by rewrite decide_True.
Qed.

Lemma UserRepository_Create_quiet (username password : string) (w : World)
    (r : Role) (l : list Role) :
  faults w = [] →
  filter (λ r, r_Title r = "user") (role (db w)) = r :: l →
  ¬ Exists (λ a, a_username a = username) (account (db w)) →
  postgres.UserRepository.Create username password w =
  let row := mkAccountRow (account_id_seq (db w) + 1) username password (r_ID r)
               (now w) (now w) in
  (Ok (mkUser (a_id row) username password "user" (now w) (now w)),
   with_db (sql.set_account (account (db w) ++ [row]) (account_id_seq (db w) + 1)
              (db w)) w).
Proof.
  intros Hf Hrole Hfree. unfold postgres.UserRepository.Create, bind, time_Now.
  unfold sql.select_role_id_by_title. rewrite (QueryRow_Scan_select _ _ Hf), Hrole.
  cbn [fmap list_fmap take]. unfold pgx.QueryRow_Scan, bind.
  rewrite (next_fault_quiet _ Hf). unfold sql.insert_account.
  by rewrite decide_False.
Qed.

(** X5.  Let the hashing keep its contract, the store answer, no account
    have the username, a role [user] exist, the password have at most 72
    bytes and [crypto/rand] deliver.  Then [Register] succeeds and adds
    exactly one row to [account], and a [Login] with the same username
    and password succeeds with the id of that row. *)
Theorem Register_then_Login (hasher : bcrypt.t) (cfg : AuthCode)
    (username password : string) (w : World) :
  hasher_sound hasher →
  faults w = [] →
  ¬ Exists (λ a, a_username a = username) (account (db w)) →
  Exists (λ r, r_Title r = "user") (role (db w)) →
  (String.length password ≤ 72)%nat →
  (48 ≤ length (entropy w))%nat →
  ∃ w1 w2 row tok,
    Register hasher (app.auth cfg) username password w = (None, w1) ∧
    account (db w1) = account (db w) ++ [row] ∧
    a_id row = account_id_seq (db w) + 1 ∧ a_username row = username ∧
    Login hasher (app.auth cfg) username password w1 =
      (Ok (mkLoginResponse (a_id row) tok), w2).
Proof.
  intros Hsound Hf Hfree Hrole Hlen He.
  apply Exists_exists in Hrole as (r0 & Hr0 & Htitle).
  destruct (filter_keeps (λ r, r_Title r = "user") _ r0 Hr0 Htitle) as (r & l & Er).
  set (w0 := with_entropy (drop 16 (entropy w)) w).
  set (digest := bcrypt.hash hasher password bcrypt.DefaultCost (take 16 (entropy w))).
  set (row := mkAccountRow (account_id_seq (db w) + 1) username digest (r_ID r)
                (now w) (now w)).
  set (w1 := with_db (sql.set_account (account (db w) ++ [row])
                        (account_id_seq (db w) + 1) (db w)) w0).
  assert (the_account row (db w1)) as Hrow.
  { split; [cbn; apply elem_of_app; right; left|]. split.
    - exists r. split; [|done]. cbn. by apply filter_first in Er as [_ ?].
    - cbn. intros a' Ha' Hname. apply elem_of_app in Ha' as [Ha'|Ha'].
      + destruct Hfree. apply Exists_exists. by exists a'.
      + by apply list_elem_of_singleton in Ha'. }
  destruct (the_account_first _ _ Hrow) as (u & k & Eu & Hid & Hdigest).
  assert (32 ≤ length (entropy w1))%nat as He1.
  { cbn. rewrite length_drop. lia. }
  eexists w1, _, row, _. repeat split.
  - unfold Register, bind. cbn. rewrite (GetByUsername_quiet _ _ Hf).
    rewrite no_account_invisible.
    + rewrite GenerateFromPassword_run by (done || lia). cbv beta iota.
      by rewrite (UserRepository_Create_quiet _ _ w0 r l Hf Er Hfree).
    + intros (a & _ & Ha & Hname & _). destruct Hfree.
      apply Exists_exists. by exists a.
  - unfold Login, bind. cbn. rewrite (GetByUsername_quiet _ w1 Hf).
    cbn in Eu. cbn. rewrite Eu, Hdigest. cbn. unfold digest. rewrite Hsound.
    rewrite (generateAccessToken_run _ _ He1). cbv beta iota.
    rewrite CreateAccessToken_quiet by done. cbn. by rewrite Hid.
Qed.

Lemma sample_hasher_sound : hasher_sound sample.hasher.
Proof. intros password cost salt. cbn. by rewrite decide_True. Qed.

Lemma Register_then_Login_witness :
  ∃ w1 w2 row tok,
    Register sample.hasher sample.auth "bob" "hunter22" sample.world = (None, w1) ∧
    account (db w1) = account (db sample.world) ++ [row] ∧
    a_id row = 43 ∧ a_username row = "bob" ∧
    Login sample.hasher sample.auth "bob" "hunter22" w1 =
      (Ok (mkLoginResponse (a_id row) tok), w2).
Proof.
  refine (Register_then_Login sample.hasher app.defaultAuthCode "bob" "hunter22"
            sample.world sample_hasher_sound eq_refl _ _ _ _).
  - intros H. apply Exists_exists in H as (a & Ha & Hname).
    apply list_elem_of_singleton in Ha as ->. discriminate.
  - apply Exists_exists. exists (mkRole 1 "user" 0 0). split; [left|done].
  - cbn. lia.
  - cbn. lia.
Defined.

(** X6.  When the store answers, no account has the username and no role
    is titled [user], [Register] fails with the repository's error for the
    missing default role, and no row is added to [account]. *)
Theorem Register_no_default_role (hasher : bcrypt.t) (cfg : AuthCode)
    (username password : string) (w : World) :
  faults w = [] →
  ¬ account_exists username (db w) →
  ¬ Exists (λ r, r_Title r = "user") (role (db w)) →
  (String.length password ≤ 72)%nat →
  (16 ≤ length (entropy w))%nat →
  ∃ w',
    Register hasher (app.auth cfg) username password w =
      (Some (wrapError "repositories.UserRepository.Create: failed to get default role: "
               pgx_ErrNoRows), w') ∧
    db w' = db w.
Proof.
  intros Hf Hfree Hrole Hlen He. eexists. split.
  - unfold Register, bind. cbn. rewrite (GetByUsername_quiet _ _ Hf).
    rewrite (no_account_invisible _ _ Hfree).
    rewrite GenerateFromPassword_run by done. cbv beta iota.
    unfold postgres.UserRepository.Create, bind, sql.select_role_id_by_title.
    rewrite QueryRow_Scan_select by done. cbn [db with_entropy].
    destruct (filter (λ r, r_Title r = "user") (role (db w))) as [|r l] eqn:E.
    + reflexivity.
    + destruct Hrole. apply filter_first in E as [? ?].
      apply Exists_exists. by exists r.
  - reflexivity.
Qed.

Lemma Register_no_default_role_witness :
  let w := with_db (sql.set_role [mkRole 2 "admin" 0 0] 2 sample.store) sample.world in
  ∃ w',
    Register sample.hasher sample.auth "bob" "hunter22" w =
      (Some (wrapError "repositories.UserRepository.Create: failed to get default role: "
               pgx_ErrNoRows), w') ∧
    db w' = db w.
Proof.
  intros w.
  refine (Register_no_default_role sample.hasher app.defaultAuthCode "bob" "hunter22"
            w eq_refl _ _ _ _).
  - intros (a & r & Ha & Hname & _).
    apply list_elem_of_singleton in Ha as ->. discriminate.
  - intros H. apply Exists_exists in H as (r & Hr & Htitle).
    apply list_elem_of_singleton in Hr as ->. discriminate.
  - cbn. lia.
  - cbn. lia.
Defined.

(** ** Sessions side by side *)

Lemma filter_ext_in {A : Type} (P Q : A → Prop) `{!∀ x, Decision (P x)}
    `{!∀ x, Decision (Q x)} (l : list A) :
  (∀ x, x ∈ l → P x ↔ Q x) → filter P l = filter Q l.
Proof.
  induction l as [|x l IH]; intros Hext; [done|].
  rewrite !filter_cons.
  rewrite IH by (intros y Hy; apply Hext; by right).
  destruct (decide (P x)) as [HP|HP], (decide (Q x)) as [HQ|HQ]; try done.
  - destruct HQ. apply Hext; [left|done].
  - destruct HP. apply Hext; [left|done].
Qed.

(** X7.  [Logout] ends one session and no other: when it succeeds (the
    store answering, [id] being a key of [token]), every other token is
    checked afterwards exactly as before. *)
Theorem Logout_other_sessions (cfg : AuthCode) (accessToken other : string)
    (w w' : World) :
  faults w = [] →
  token_ids_unique (db w) →
  Logout (app.auth cfg) accessToken w = (None, w') →
  other ≠ accessToken →
  (CheckAccessToken (app.auth cfg) other w').1 =
  (CheckAccessToken (app.auth cfg) other w).1.
Proof.
  intros Hf Hpk HL Hne.
  unfold Logout, bind in HL. cbn in HL.
  rewrite (GetAccessTokenByToken_quiet _ _ Hf) in HL.
  destruct (filter (λ r, at_Token r = accessToken) (token (db w))) as [|t k] eqn:E;
    [done|].
  apply filter_first in E as [Htok Ht].
  unfold postgres.TokenRepository.DeleteAccessToken, pgx.Exec, bind in HL.
  rewrite (next_fault_quiet _ Hf) in HL. cbn in HL.
  destruct (Z.of_nat _ =? 0); [done|]. injection HL as <-.
  unfold CheckAccessToken, bind. cbn.
  rewrite !GetAccessTokenByToken_quiet by done. cbn.
  rewrite list_filter_filter.
  rewrite (filter_ext_in _ (λ r, at_Token r = other) (token (db w)));
    [by destruct (filter _ _)|].
  intros x Hx. split; [by intros [? _]|]. intros Hother. split; [done|].
  intros Hid. apply Hne. rewrite <- Hother, <- Htok. f_equal. by apply Hpk.
Qed.

Lemma Logout_other_sessions_witness :
  (CheckAccessToken sample.auth "00ff"
     (Logout sample.auth "beef"
        (with_db (sql.set_token [mkAccessToken 1 7 "00ff" 30 30;
                                 mkAccessToken 2 42 "beef" 40 40] 2 sample.store)
           sample.world)).2).1 =
  (7, None).
Proof.
  refine (Logout_other_sessions app.defaultAuthCode "beef" "00ff"
            (with_db (sql.set_token [mkAccessToken 1 7 "00ff" 30 30;
                                     mkAccessToken 2 42 "beef" 40 40] 2 sample.store)
               sample.world) _ eq_refl _ _ _).
  - intros t t' Ht Ht' Hid. cbn in Ht, Ht'.
    apply elem_of_cons in Ht as [->|Ht]; apply elem_of_cons in Ht' as [->|Ht'];
      try apply list_elem_of_singleton in Ht as ->;
      try apply list_elem_of_singleton in Ht' as ->; done.
  - vm_compute. reflexivity.
  - discriminate.
Defined.

(** ** Roles *)

Lemma GetByID_run (id : Z) (w : World) :
  postgres.UserRepository.GetByID id w =
  (match slot 0 w with
   | Some msg =>
       Err (Errorf_wrap "repositories.UserRepository.GetByID" (errorString msg))
   | None =>
       match filter (λ u, u_ID u = id) (sql.account_join_role (db w)) with
       | [] => Err (Errorf_wrap "repositories.UserRepository.GetByID" pgx_ErrNoRows)
       | u :: _ => Ok u
       end
   end, sent w).
Proof.
  unfold postgres.UserRepository.GetByID, bind, sql.select_user_by_id.
  rewrite QueryRow_Scan_select_run. destruct (slot 0 w); [done|].
  by destruct (filter _ _).
Qed.

Lemma GetByTitle_run (title : string) (w : World) :
  postgres.RoleRepository.GetByTitle title w =
  (match slot 0 w with
   | Some msg =>
       Err (Errorf_wrap "repositories.RoleRepository.GetByTitle" (errorString msg))
   | None =>
       match filter (λ r, r_Title r = title) (role (db w)) with
       | [] => Err (Errorf_wrap "repositories.RoleRepository.GetByTitle" pgx_ErrNoRows)
       | r :: _ => Ok r
       end
   end, sent w).
Proof.
  unfold postgres.RoleRepository.GetByTitle, bind, sql.select_role_by_title.
  rewrite QueryRow_Scan_select_run. destruct (slot 0 w); [done|].
  by destruct (filter _ _).
Qed.

Lemma no_account_with_id_invisible (id : Z) (d : DB) :
  ¬ account_with_id id d →
  filter (λ u, u_ID u = id) (sql.account_join_role d) = [].
Proof.
  intros Hno.
  destruct (filter (λ u, u_ID u = id) (sql.account_join_role d)) as [|u k] eqn:E;
    [done|].
  apply filter_first in E as [Hid Hu].
  apply account_join_role_elem in Hu as (a & r & Ha & Hr & Hrid & ->).
  destruct Hno. by exists a, r.
Qed.

(** X8.  When the lookup of the account meets a fault of the store, or no
    account has the id, [GetRole] returns the empty title with
    [ErrAccountNotFound], and the store is left as it was. *)
Theorem GetRole_unknown (cfg : AuthCode) (userID : Z) (w : World) :
  is_Some (slot 0 w) ∨ ¬ account_with_id userID (db w) →
  GetRole (app.auth cfg) userID w = ("", Some ErrAccountNotFound, sent w).
Proof.
  intros Hwhy. unfold GetRole, bind. cbn. rewrite GetByID_run.
  destruct (slot 0 w) as [msg|]; [done|].
  destruct Hwhy as [[? [=]]|Hno]. by rewrite (no_account_with_id_invisible _ _ Hno).
Qed.

Lemma sample_no_account_8 : ¬ account_with_id 8 (db sample.world).
Proof.
  intros (a & r & Ha & Hid & _).
  apply list_elem_of_singleton in Ha as ->. discriminate.
Qed.

Lemma GetRole_unknown_witness :
  GetRole sample.auth 8 sample.world = ("", Some ErrAccountNotFound, sample.world).
Proof.
  exact (GetRole_unknown app.defaultAuthCode 8 sample.world
           (or_intror sample_no_account_8)).
Defined.

(** X9.  When the lookup of the role meets a fault of the store, or no
    role has the title, [SetRole] fails with [ErrInvalidRole] before the
    account is looked at, and the store is left as it was. *)
Theorem SetRole_invalid_role (cfg : AuthCode) (userID : Z) (title : string)
    (w : World) :
  is_Some (slot 0 w) ∨ ¬ Exists (λ r, r_Title r = title) (role (db w)) →
  SetRole (app.auth cfg) userID title w = (Some ErrInvalidRole, sent w).
Proof.
  intros Hwhy. unfold SetRole, bind. cbn. rewrite GetByTitle_run.
  destruct (slot 0 w) as [msg|]; [done|].
  destruct Hwhy as [[? [=]]|Hno].
  destruct (filter (λ r, r_Title r = title) (role (db w))) as [|r l] eqn:E; [done|].
  destruct Hno. apply filter_first in E as [? ?]. apply Exists_exists. by exists r.
Qed.

Lemma SetRole_invalid_role_witness :
  SetRole sample.auth 42 "root" sample.world = (Some ErrInvalidRole, sample.world).
Proof.
  refine (SetRole_invalid_role app.defaultAuthCode 42 "root" sample.world
            (or_intror _)).
  intros H. apply Exists_exists in H as (r & Hr & Htitle). cbn in Hr.
  apply elem_of_cons in Hr as [->|Hr]; [discriminate|].
  apply list_elem_of_singleton in Hr as ->. discriminate.
Defined.

(** X10.  When the role exists but the lookup of the account meets a
    fault of the store, or no account has the id, [SetRole] fails with
    [ErrAccountNotFound] and the store is left as it was. *)
Theorem SetRole_unknown_account (cfg : AuthCode) (userID : Z) (title : string)
    (w : World) :
  slot 0 w = None →
  Exists (λ r, r_Title r = title) (role (db w)) →
  is_Some (slot 1 w) ∨ ¬ account_with_id userID (db w) →
  SetRole (app.auth cfg) userID title w = (Some ErrAccountNotFound, sent (sent w)).
Proof.
  intros Hs Hrole Hwhy. unfold SetRole, bind. cbn. rewrite GetByTitle_run, Hs.
  apply Exists_exists in Hrole as (r0 & Hr0 & Htitle).
  destruct (filter_keeps (λ r, r_Title r = title) _ r0 Hr0 Htitle) as (r & l & ->).
  rewrite GetByID_run, slot_sent.
  destruct (slot 1 w) as [msg|]; [done|].
  destruct Hwhy as [[? [=]]|Hno].
  change (db (sent w)) with (db w).
  by rewrite (no_account_with_id_invisible _ _ Hno).
Qed.

Lemma SetRole_unknown_account_witness :
  SetRole sample.auth 8 "admin" sample.world =
    (Some ErrAccountNotFound, sample.world).
Proof.
  refine (SetRole_unknown_account app.defaultAuthCode 8 "admin" sample.world
            eq_refl _ (or_intror sample_no_account_8)).
  apply Exists_exists. exists (mkRole 2 "admin" 0 0). split; [right; left|done].
Defined.

(** The store after [UPDATE "account" SET role_id = $1, updated_at = $2
    WHERE id = $3]. *)
Lemma update_account_role_join (roleID userID : Z) (t : Time) (d : DB)
    (r : Role) (u : User) :
  role_ids_unique d →
  r ∈ role d → r_ID r = roleID →
  u ∈ sql.account_join_role d → u_ID u = userID →
  ∃ x k,
    filter (λ x, u_ID x = userID)
      (sql.account_join_role (sql.update_account_role roleID t userID d).2) = x :: k ∧
    u_Role x = r_Title r.
Proof.
  intros Hpk Hr Hrid Hu Hid.
  apply account_join_role_elem in Hu as (a & r0 & Ha & _ & _ & ->). cbn in Hid.
  set (a' := mkAccountRow (a_id a) (a_username a) (a_password a) roleID
               (a_created_at a) t).
  assert (mkUser (a_id a') (a_username a') (a_password a') (r_Title r)
            (a_created_at a') (a_updated_at a') ∈
          sql.account_join_role (sql.update_account_role roleID t userID d).2) as Hin.
  { apply account_join_role_elem. exists a', r. cbn. repeat split; [|done..].
    apply list_elem_of_fmap. exists a. split; [|done]. by rewrite decide_True. }
  destruct (filter_keeps (λ x, u_ID x = userID) _ _ Hin Hid) as (x & k & E).
  exists x, k. split; [done|].
  apply filter_first in E as [Hx Hxin].
  apply account_join_role_elem in Hxin as (b' & r' & Hb' & Hr' & Hjoin & ->).
  cbn in *. f_equal. apply Hpk; [done..|].
  apply list_elem_of_fmap in Hb' as (b & -> & Hb).
  case_decide; cbn in *; congruence.
Qed.

(** X11.  What [SetRole] has set, [GetRole] returns: when [SetRole]
    succeeds (the store answering, [id] being a key of [role]), [GetRole]
    for that account returns the title given. *)
Theorem SetRole_then_GetRole (cfg : AuthCode) (userID : Z) (title : string)
    (w w' : World) :
  faults w = [] →
  role_ids_unique (db w) →
  SetRole (app.auth cfg) userID title w = (None, w') →
  GetRole (app.auth cfg) userID w' = (title, None, w').
Proof.
  intros Hf Hpk HS.
  unfold SetRole, bind in HS. cbn in HS.
  rewrite GetByTitle_run, (slot_quiet _ _ Hf), (sent_quiet _ Hf) in HS.
  destruct (filter (λ r, r_Title r = title) (role (db w))) as [|r l] eqn:Er; [done|].
  rewrite GetByID_run, (slot_quiet _ _ Hf), (sent_quiet _ Hf) in HS.
  destruct (filter (λ u, u_ID u = userID) (sql.account_join_role (db w)))
    as [|u k] eqn:Eu; [done|].
  unfold postgres.UserRepository.UpdateUserRole, pgx.Exec, bind, time_Now in HS.
  rewrite (next_fault_quiet _ Hf) in HS. cbn in HS.
  destruct (Z.of_nat _ =? 0); [done|]. injection HS as <-.
  apply filter_first in Er as [Htitle Hr]. apply filter_first in Eu as [Hid Hu].
  destruct (update_account_role_join (r_ID r) userID (now w) (db w) r u
              Hpk Hr eq_refl Hu Hid) as (x & k' & E & Hrole).
  unfold GetRole, bind. cbn. rewrite GetByID_run.
  rewrite slot_quiet, sent_quiet by done. cbn.
  cbn in E. rewrite E. by rewrite Hrole, Htitle.
Qed.

Lemma sample_role_ids_unique : role_ids_unique (db sample.world).
Proof.
  intros r r' Hr Hr' Hid. cbn in Hr, Hr'.
  apply elem_of_cons in Hr as [->|Hr]; apply elem_of_cons in Hr' as [->|Hr'];
    try apply list_elem_of_singleton in Hr as ->;
    try apply list_elem_of_singleton in Hr' as ->; done.
Qed.

Lemma SetRole_then_GetRole_witness :
  let w' := (SetRole sample.auth 42 "admin" sample.world).2 in
  GetRole sample.auth 42 w' = ("admin", None, w').
Proof.
  apply (SetRole_then_GetRole app.defaultAuthCode 42 "admin" sample.world _
           eq_refl sample_role_ids_unique).
  vm_compute. reflexivity.
Defined.

(** ** The cache repository *)

Lemma pretty_N_char_digit (x : N) :
  (x < 10)%N →
  json.is_digit (pretty_N_char x) = true ∧
  Z.of_N (N_of_ascii (pretty_N_char x)) - 48 = Z.of_N x.
Proof.
  intros H.
  assert (x = 0 ∨ x = 1 ∨ x = 2 ∨ x = 3 ∨ x = 4 ∨ x = 5 ∨ x = 6 ∨ x = 7 ∨
          x = 8 ∨ x = 9)%N as Hx by lia.
  destruct Hx as [->|[->|[->|[->|[->|[->|[->|[->|[->| ->]]]]]]]]]; by vm_compute.
Qed.

(** Reading the digits that [pretty_N_go] puts in front of [s]. *)
Lemma digits_value_pretty_N_go (x : N) (s : string) :
  json.digits_value 0 (pretty_N_go x s) = json.digits_value (Z.of_N x) s.
Proof.
  revert s. induction (N.lt_wf_0 x) as [x _ IH]. intros s.
  destruct (decide (x = 0)%N) as [->|Hx]; [done|].
  rewrite pretty_N_go_step by lia.
  rewrite IH by (apply N.div_lt; lia). cbn [json.digits_value].
  destruct (pretty_N_char_digit (x `mod` 10)) as [-> ->].
  { apply N.mod_lt. lia. }
  f_equal. rewrite N2Z.inj_div, N2Z.inj_mod. cbn.
  pose proof (Z.div_mod (Z.of_N x) 10). lia.
Qed.

(** A positive number is printed without a leading zero or sign. *)
Lemma pretty_N_go_head (x : N) (s : string) :
  (0 < x)%N →
  ∃ c t, pretty_N_go x s = String c t ∧ json.is_digit c = true ∧ c ≠ "0"%char.
Proof.
  revert s. induction (N.lt_wf_0 x) as [x _ IH]. intros s Hx.
  rewrite pretty_N_go_step by done.
  destruct (decide (x `div` 10 = 0)%N) as [Hd|Hd].
  - rewrite Hd, pretty_N_go_0. eexists _, _. split; [done|].
    assert (x < 10)%N as Hlt by (apply N.div_small_iff in Hd; lia).
    rewrite N.mod_small by done.
    assert (x = 1 ∨ x = 2 ∨ x = 3 ∨ x = 4 ∨ x = 5 ∨ x = 6 ∨ x = 7 ∨
            x = 8 ∨ x = 9)%N as Hcase by lia.
    destruct Hcase as [->|[->|[->|[->|[->|[->|[->|[->| ->]]]]]]]]; by vm_compute.
  - apply IH; [apply N.div_lt; lia|by apply N.neq_0_lt_0].
Qed.

Lemma numeral_positive (p : positive) :
  ∃ c t, pretty (N.pos p) = String c t ∧ json.is_digit c = true ∧ c ≠ "0"%char ∧
         json.digits_value 0 (String c t) = Some (Z.pos p).
Proof.
  unfold pretty, pretty_N. rewrite decide_False by done.
  destruct (pretty_N_go_head (N.pos p) "") as (c & t & E & Hd & Hz); [lia|].
  exists c, t. repeat split; try done.
  by rewrite <- E, digits_value_pretty_N_go.
Qed.

Lemma numeral_body (c : ascii) (t : string) (v : Z) :
  json.is_digit c = true → c ≠ "0"%char →
  json.digits_value 0 (String c t) = Some v →
  json.numeral (String c t) = Some v ∧
  json.numeral (String "-" (String c t)) = Some (- v) ∧
  String c t ≠ "null" ∧ String "-" (String c t) ≠ "null".
Proof.
  intros Hd Hz Hv.
  destruct c as [[] [] [] [] [] [] [] []]; try discriminate Hd; try (by destruct Hz);
    cbn [json.numeral]; rewrite Hv; done.
Qed.

(** What [json.Marshal] writes for an [int], [json.Unmarshal] reads
    back. *)
Lemma Unmarshal_Marshal (v old : Z) :
  in_int64 v → json.Unmarshal (json.Marshal v) old = (v, None).
Proof.
  intros [Hlo Hhi]. unfold json.Unmarshal.
  assert (json.Marshal v ≠ "null" ∧ json.numeral (json.Marshal v) = Some v) as [Hn Hnum].
  { unfold json.Marshal, pretty, pretty_Z. destruct v as [|p|p].
    - done.
    - destruct (numeral_positive p) as (c & t & E & Hd & Hz & Hv).
      change (pretty p) with (pretty (N.pos p)). rewrite E.
      by destruct (numeral_body c t _ Hd Hz Hv) as (? & _ & ? & _).
    - destruct (numeral_positive p) as (c & t & E & Hd & Hz & Hv).
      change (pretty p) with (pretty (N.pos p)). rewrite E.
      by destruct (numeral_body c t _ Hd Hz Hv) as (_ & ? & _ & ?). }
  rewrite bool_decide_eq_false_2 by done. rewrite Hnum.
  assert ((- 2 ^ 63 <=? v) && (v <? 2 ^ 63) = true) as ->; [|done].
  apply andb_true_intro. split; [by apply Z.leb_le|by apply Z.ltb_lt].
Qed.

Lemma Set_run_quiet (key : string) (value expTime : Z) (w : World) :
  faults w = [] → 0 < expTime →
  redisrepo.RedisRepository.Set_ key value expTime w =
  (None,
   with_rdb (<[key := (json.Marshal value, Some (now w + expTime))]> (rdb w)) w).
Proof.
  intros Hf Hexp. unfold redisrepo.RedisRepository.Set_, redis.Set_, bind.
  rewrite (next_fault_quiet _ Hf).
  assert ((0 <? expTime) = true) as -> by (by apply Z.ltb_lt). done.
Qed.

(** Reading, at time [t], a key that [Set] has written. *)
Lemma Get_after_Set (key : string) (value expTime old t : Z) (w : World) :
  faults w = [] → in_int64 value → 0 < expTime →
  redisrepo.RedisRepository.Get key old
    (with_now t (redisrepo.RedisRepository.Set_ key value expTime w).2) =
  (if t <? now w + expTime then (value, None) else (old, Some ErrCacheNotFound),
   with_now t (redisrepo.RedisRepository.Set_ key value expTime w).2).
Proof.
  intros Hf Hv Hexp. rewrite (Set_run_quiet _ _ _ _ Hf Hexp). cbn [snd].
  rewrite Get_run, slot_quiet, sent_quiet by done.
  unfold redis.entry_of, redis.live. cbn. rewrite lookup_insert_eq. cbn.
  destruct (t <? now w + expTime); [|done].
  by rewrite (Unmarshal_Marshal _ _ Hv).
Qed.



Lemma TgConnection_Create_quiet (userID tgUserID : Z) (w : World) :
  faults w = [] →
  ¬ Exists (λ r, tg_UserID r = userID) (telegram_connection (db w)) →
  ¬ Exists (λ r, tg_TgUserID r = tgUserID) (telegram_connection (db w)) →
  postgres.TgConnectionRepository.Create userID tgUserID w =
  let row := mkTgConnection (telegram_connection_id_seq (db w) + 1) userID tgUserID
               (now w) (now w) in
  (Ok row,
   with_db (sql.set_telegram_connection (telegram_connection (db w) ++ [row])
              (telegram_connection_id_seq (db w) + 1) (db w)) w).
Proof.
  intros Hf Hu Ht.
  unfold postgres.TgConnectionRepository.Create, pgx.QueryRow_Scan, bind, time_Now.
  rewrite (next_fault_quiet _ Hf). unfold sql.insert_telegram_connection.
  by rewrite !decide_False.
Qed.

(** X13.  The id handed to [GenerateAuthCode] ends up as the secondary
    identity of whoever verifies the code.  Let the goroutine's write of
    [code] for account [userID] have gone through, the store answer and
    the code be unexpired; let account [verifier] have no link and
    [userID] be the secondary identity of no link.  Then
    [Verify verifier code] succeeds and the link it creates binds
    [verifier] to [userID]. *)
Theorem Verify_after_cache_write (cfg : AuthCode) (userID verifier : Z)
    (code : string) (w : World) :
  faults w = [] → in_int64 userID → 0 < TTL cfg →
  link_of verifier w = None →
  ¬ Exists (λ r, tg_TgUserID r = userID) (telegram_connection (db w)) →
  let w1 := (RedisRepository.Set_ (authCodes (app.auth cfg)) code userID
               (TTL (authCode (app.auth cfg))) w).2 in
  ∃ w2,
    Verify (app.auth cfg) verifier code w1 = (true, None, w2) ∧
    link_of verifier w2 =
      Some (mkTgConnection (telegram_connection_id_seq (db w) + 1) verifier userID
              (now w) (now w)) ∧
    cached code w2 = None.
Proof.
  intros Hf Hv Httl Hlink Hfree w1. cbn in w1.
  assert (faults w1 = []) as Hf1.
  { unfold w1. by rewrite (Set_run_quiet _ _ _ _ Hf Httl). }
  assert (db w1 = db w ∧ now w1 = now w) as [Hdb Hnow].
  { unfold w1. by rewrite (Set_run_quiet _ _ _ _ Hf Httl). }
  assert (redisrepo.RedisRepository.Get code 0 w1 = (userID, None, w1)) as HG.
  { pose proof (Get_after_Set code userID (TTL cfg) 0 (now w) w Hf Hv Httl) as H.
    assert (with_now (now w)
              (redisrepo.RedisRepository.Set_ code userID (TTL cfg) w).2 = w1) as Hw.
    { unfold w1. rewrite (Set_run_quiet _ _ _ _ Hf Httl). by destruct w. }
    rewrite Hw in H. rewrite H.
    assert ((now w <? now w + TTL cfg) = true) as -> by (apply Z.ltb_lt; lia).
    done. }
  assert (link_of verifier w1 = None) as Hlink1.
  { unfold link_of. rewrite Hdb. exact Hlink. }
  assert (postgres.TgConnectionRepository.GetByUserID verifier w1 =
          (Err ErrTgConnNotFound, w1)) as HL.
  { by rewrite GetByUserID_run, slot_quiet, sent_quiet, Hlink1. }
  pose proof (TgConnection_Create_quiet verifier userID w1 Hf1) as HC.
  rewrite Hdb, Hnow in HC. specialize (HC (link_of_None _ _ Hlink) Hfree).
  cbv zeta in HC.
  rewrite (Verify_created cfg _ _ _ _ _ _ _ _ HG HL HC).
  unfold compare_and_delete, bind. rewrite decide_False by (intros H; by apply H).
  rewrite Del_run, slot_quiet by done.
  eexists. split; [reflexivity|]. split.
  - unfold link_of. cbn. rewrite filter_app.
    unfold link_of in Hlink.
    destruct (filter (λ r, tg_UserID r = verifier) (telegram_connection (db w)));
      [|done].
    by rewrite filter_cons_True.
  - unfold cached, redis.entry_of. cbn. by rewrite lookup_delete_eq.
Qed.

Lemma Verify_after_cache_write_witness :
  let w1 := (RedisRepository.Set_ (authCodes sample.auth) "318642" 42
               (TTL (authCode sample.auth)) sample.world).2 in
  ∃ w2,
    Verify sample.auth 9 "318642" w1 = (true, None, w2) ∧
    link_of 9 w2 = Some (mkTgConnection 2 9 42 100 100) ∧
    cached "318642" w2 = None.
Proof.
  refine (Verify_after_cache_write app.defaultAuthCode 42 9 "318642" sample.world
            eq_refl _ eq_refl eq_refl _).
  - unfold in_int64. lia.
  - intros H. apply Exists_exists in H as (r & Hr & Hid).
    apply list_elem_of_singleton in Hr as ->. discriminate.
Defined.

(** ** What [Verify] leaves behind *)

Lemma links_added_nil (w w' : World) : db w' = db w → links_added [] w w'.
Proof. intros E. unfold links_added. rewrite E, app_nil_r. done. Qed.

Lemma TgConnection_Create_effects (userID tgUserID : Z) (w w' : World)
    (r : result TgConnection) :
  postgres.TgConnectionRepository.Create userID tgUserID w = (r, w') →
  rdb w' = rdb w ∧ faults w' = faults (sent w) ∧
  ∃ l, links_added l w w' ∧
       match r with Ok tgConn => l = [tgConn] | Err _ => l = [] end.
Proof.
  unfold postgres.TgConnectionRepository.Create, pgx.QueryRow_Scan, bind, time_Now.
  rewrite next_fault_run. destruct (slot 0 w) as [msg|].
  { intros [= <- <-]. repeat split. exists []. split; [by apply links_added_nil|done]. }
  unfold sql.insert_telegram_connection. change (db (sent w)) with (db w).
  repeat case_decide; cbn; intros [= <- <-]; repeat split.
  - exists []. split; [|done]. unfold links_added. cbn. by rewrite app_nil_r.
  - exists []. split; [|done]. unfold links_added. cbn. by rewrite app_nil_r.
  - eexists. split; [|done]. by unfold links_added.
Qed.

Lemma compare_and_delete_world (code : string) (v : Z) (tgConn : TgConnection)
    (w : World) :
  let '(r, w') := compare_and_delete code v tgConn w in
  db w' = db w ∧
  rdb w' = if decide (r = (true, None)) then delete code (rdb w) else rdb w.
Proof.
  unfold compare_and_delete, bind. case_decide; [done|].
  rewrite Del_run. by destruct (slot 0 w).
Qed.

Lemma Verify_world (cfg : AuthCode) (userID : Z) (code : string) (w : World) :
  let '(r, w') := Verify (app.auth cfg) userID code w in
  (∃ l, links_added l w w' ∧ (length l ≤ 1)%nat ∧
        (is_Some (link_of userID w) → l = [])) ∧
  rdb w' = if decide (r = (true, None)) then delete code (rdb w) else rdb w.
Proof.
  assert (∀ (r : bool * option error) w', db w' = db w →
            rdb w' = (if decide (r = (true, None)) then delete code (rdb w) else rdb w) →
            (∃ l, links_added l w w' ∧ (length l ≤ 1)%nat ∧
                  (is_Some (link_of userID w) → l = [])) ∧
            rdb w' = if decide (r = (true, None)) then delete code (rdb w) else rdb w)
    as Hsame.
  { intros r w' Hdb Hrdb. split; [|done]. exists [].
    split; [by apply links_added_nil|split; [cbn; lia|done]]. }
  destruct (redisrepo.RedisRepository.Get code 0 w) as [[v [e|]] w1] eqn:HG.
  { unfold Verify, bind. cbn. rewrite HG. rewrite Get_run in HG.
    injection HG as _ <-. destruct (errors.Is e ErrCacheNotFound); by apply Hsame. }
  assert (w1 = sent w) as -> by (rewrite Get_run in HG; by injection HG).
  destruct (postgres.TgConnectionRepository.GetByUserID userID (sent w))
    as [[tgConn|e] w2] eqn:HL.
  { rewrite (Verify_found cfg _ _ _ _ _ _ _ HG HL).
    rewrite GetByUserID_run in HL. injection HL as _ <-.
    pose proof (compare_and_delete_world code v tgConn (sent (sent w))) as H.
    destruct (compare_and_delete code v tgConn (sent (sent w))) as [r w'].
    destruct H as [Hdb Hrdb]. by apply Hsame. }
  rewrite GetByUserID_run, slot_sent, link_of_sent in HL.
  destruct (slot 1 w) as [msg|] eqn:Hs.
  { injection HL as <- <-. unfold Verify, bind. cbn.
    rewrite HG, GetByUserID_run, slot_sent, Hs. by apply Hsame. }
  destruct (link_of userID w) as [tgConn|] eqn:Hlink; [done|].
  injection HL as <- <-.
  assert (postgres.TgConnectionRepository.GetByUserID userID (sent w) =
          (Err ErrTgConnNotFound, sent (sent w))) as HL.
  { by rewrite GetByUserID_run, slot_sent, Hs, link_of_sent, Hlink. }
  destruct (postgres.TgConnectionRepository.Create userID v (sent (sent w)))
    as [[tgConn|e] w2] eqn:HC.
  - rewrite (Verify_created cfg _ _ _ _ _ _ _ _ HG HL HC).
    apply TgConnection_Create_effects in HC as (Hrdb2 & _ & l & Hl & ->).
    pose proof (compare_and_delete_world code v tgConn w2) as H.
    destruct (compare_and_delete code v tgConn w2) as [r w'].
    destruct H as [Hdb Hrdb]. split.
    + exists [tgConn]. split; [|split; [cbn; lia|by intros [? ?]]].
      unfold links_added in *. by rewrite Hdb.
    + by rewrite Hrdb, Hrdb2.
  - unfold Verify, bind. cbn. rewrite HG, HL. cbn.
    rewrite bool_decide_eq_true_2 by done. cbn. rewrite HC. cbn.
    apply TgConnection_Create_effects in HC as (Hrdb2 & _ & l & Hl & ->).
    split; [|done]. exists []. split; [done|split; [cbn; lia|done]].
Qed.

(** X14.  [Verify] never removes or rewrites a link and touches no other
    table: whatever it returns, [telegram_connection] afterwards is what
    it was with at most one row added at the end, and none when the
    account already had a link, which is then the one compared against;
    [role], [account], [token] and [service_token] are as they were. *)
Theorem Verify_keeps_links (cfg : AuthCode) (userID : Z) (code : string) (w : World) :
  ∃ l, links_added l w (Verify (app.auth cfg) userID code w).2 ∧
       (length l ≤ 1)%nat ∧
       (is_Some (link_of userID w) → l = []).
Proof.
  pose proof (Verify_world cfg userID code w) as H.
  destruct (Verify (app.auth cfg) userID code w) as [r w']. by destruct H.
Qed.







(** ** The handlers *)

(** Whatever the repositories are, [Verify] returns [false] only together
    with an error. *)
Lemma Verify_nil_error_true (s : AuthService) (userID : Z) (code : string)
    (w : World) (b : bool) :
  (Verify s userID code w).1 = (b, None) → b = true.
Proof.
  unfold Verify, bind.
  destruct (RedisRepository.Get _ _ _ _) as [[v [e|]] w1].
  { by destruct (errors.Is e ErrCacheNotFound). }
  assert (∀ tgConn w2,
            ((if decide (v ≠ tg_TgUserID tgConn)
              then ret (false, Some ErrVerificationFailed)
              else
                λ w0, let (a, w') := RedisRepository.Del (authCodes s) code w0 in
                      (let (_, err) := a in
                       match err with
                       | Some err => ret (false, Some err)
                       | None => ret (true, None)
                       end) w') w2).1 = (b, None) → b = true) as Htail.
  { intros tgConn w2. case_decide; [done|].
    destruct (RedisRepository.Del _ _ _) as [[n [e|]] w3]; [done|]. by intros [= <-]. }
  destruct (TgConnectionRepoI.GetByUserID _ _ _) as [[tgConn|e] w2].
  { apply Htail. }
  destruct (errors.Is e ErrTgConnNotFound); [|done].
  destruct (TgConnectionRepoI.Create _ _ _ _) as [[tgConn|e'] w3]; [|done].
  apply Htail.
Qed.

(** X17.  Whatever the repositories are, a response of the [Verify]
    handler says [Verified = true]: the handler never answers with a
    response that says the code was not verified, a failed verification
    always being a status, of code [InvalidArgument] or [Internal]. *)
Theorem handler_Verify_replies (s : AuthService) (UserId : Z) (Code : string)
    (w : World) :
  match (controller.Verify s UserId Code w).1 with
  | controller.Response verified => verified = true
  | controller.Status code _ =>
      code = codes.InvalidArgument ∨ code = codes.Internal
  end.
Proof.
  unfold controller.Verify, bind. case_decide; [by left|].
  pose proof (Verify_nil_error_true s UserId Code w) as Htrue.
  destruct (Verify s UserId Code w) as [[b [e|]] w']; cbn in *.
  - destruct (errors.Is e ErrVerificationFailed); [by left|by right].
  - by apply Htrue.
Qed.

Lemma GetServiceTokenByToken_run (tok : string) (w : World) :
  postgres.TokenRepository.GetServiceTokenByToken tok w =
  (match slot 0 w with
   | Some msg =>
       Err (Errorf_wrap "repositories.TokenRepository.GetServiceTokenByToken"
              (errorString msg))
   | None =>
       match filter (λ r, st_Token r = tok) (service_token (db w)) with
       | [] => Err (Errorf_wrap "repositories.TokenRepository.GetServiceTokenByToken"
                      pgx_ErrNoRows)
       | r :: _ => Ok r
       end
   end, sent w).
Proof.
  unfold postgres.TokenRepository.GetServiceTokenByToken, bind.
  unfold sql.select_service_token_by_token.
  rewrite QueryRow_Scan_select_run. destruct (slot 0 w); [done|].
  by destruct (filter _ _).
Qed.

(** X18.  For a token that is not empty the [CheckServiceToken] handler
    always answers with a response, never with a status: [Valid] is
    [true] exactly when the store answers and a row of [service_token]
    carries the token, so that a fault of the store makes a good token
    look invalid. *)
Theorem handler_CheckServiceToken_replies (cfg : AuthCode) (ServiceToken : string)
    (w : World) :
  ServiceToken ≠ "" →
  controller.CheckServiceToken (app.auth cfg) ServiceToken w =
  (controller.Response
     (bool_decide (slot 0 w = None ∧
                   Exists (λ r, st_Token r = ServiceToken) (service_token (db w)))),
   sent w).
Proof.
  intros Hne. unfold controller.CheckServiceToken, bind.
  rewrite decide_False by done. rewrite CheckServiceToken_run. cbn.
  rewrite GetServiceTokenByToken_run.
  destruct (slot 0 w) as [msg|].
  { rewrite bool_decide_eq_false_2; [done|]. by intros [? _]. }
  destruct (filter (λ r, st_Token r = ServiceToken) (service_token (db w)))
    as [|r l] eqn:E.
  - rewrite bool_decide_eq_false_2; [done|]. intros [_ Hex].
    by apply (filter_nil_not_Exists _ _ E).
  - rewrite bool_decide_eq_true_2; [done|]. split; [done|].
    apply filter_first in E as [? ?]. apply Exists_exists. by exists r.
Qed.

Lemma handler_CheckServiceToken_replies_witness :
  controller.CheckServiceToken sample.auth "c0de" sample.world =
    (controller.Response true, sample.world) ∧
  controller.CheckServiceToken sample.auth "c0de"
    (with_faults [Some "connection refused"] sample.world) =
    (controller.Response false, sample.world).
Proof.
  split.
  - refine (handler_CheckServiceToken_replies app.defaultAuthCode "c0de"
              sample.world _). discriminate.
  - refine (handler_CheckServiceToken_replies app.defaultAuthCode "c0de"
              (with_faults [Some "connection refused"] sample.world) _). discriminate.
Defined.

(** X19.  For an id that no account has, the store answering, the two
    role handlers disagree: [GetRole] answers with the status [Internal],
    [SetRole] (for a role that exists) with the status [NotFound]. *)
Theorem handler_roles_unknown_account (cfg : AuthCode) (UserId : Z) (Role : string)
    (w : World) :
  faults w = [] →
  UserId ≠ 0 → Role ≠ "" →
  ¬ account_with_id UserId (db w) →
  Exists (λ r, r_Title r = Role) (role (db w)) →
  controller.GetRole (app.auth cfg) UserId w =
    (controller.Status codes.Internal "internal server error", w) ∧
  controller.SetRole (app.auth cfg) UserId Role w =
    (controller.Status codes.NotFound "user not found", w).
Proof.
  intros Hf Hid Hrole Hno Hex. split.
  - unfold controller.GetRole, bind. rewrite decide_False by done.
    unfold GetRole, bind. cbn. rewrite GetByID_run, (slot_quiet _ _ Hf).
    rewrite (no_account_with_id_invisible _ _ Hno). cbn. by rewrite sent_quiet.
  - unfold controller.SetRole, bind. rewrite decide_False by (by intros [?|?]).
    unfold SetRole, bind. cbn. rewrite GetByTitle_run, (slot_quiet _ _ Hf).
    apply Exists_exists in Hex as (r0 & Hr0 & Htitle).
    destruct (filter_keeps (λ r, r_Title r = Role) _ r0 Hr0 Htitle) as (r & l & ->).
    rewrite (sent_quiet _ Hf), GetByID_run, (slot_quiet _ _ Hf).
    rewrite (no_account_with_id_invisible _ _ Hno). cbn. by rewrite sent_quiet.
Qed.

Lemma handler_roles_unknown_account_witness :
  controller.GetRole sample.auth 8 sample.world =
    (controller.Status codes.Internal "internal server error", sample.world) ∧
  controller.SetRole sample.auth 8 "admin" sample.world =
    (controller.Status codes.NotFound "user not found", sample.world).
Proof.
  refine (handler_roles_unknown_account app.defaultAuthCode 8 "admin" sample.world
            eq_refl _ _ sample_no_account_8 _).
  - discriminate.
  - discriminate.
  - apply Exists_exists. exists (mkRole 2 "admin" 0 0). split; [right; left|done].
Defined.

(** X21.  The [Login] handler, for a username and password that are not
    empty: when the lookup of the account meets a fault of the store or
    no account has the username, the status is [NotFound]; when the
    store answers and the password does not fit the account's digest,
    the status is [Unauthenticated].  In both cases the store is left as
    it was. *)
Theorem handler_Login_status (hasher : bcrypt.t) (cfg : AuthCode)
    (Username Password : string) (w : World) :
  Username ≠ "" → Password ≠ "" →
  (is_Some (slot 0 w) ∨ ¬ account_exists Username (db w) →
   controller.Login hasher (app.auth cfg) Username Password w =
     (controller.Status codes.NotFound "account not found", sent w)) ∧
  (∀ a e,
     slot 0 w = None → the_account a (db w) → a_username a = Username →
     bcrypt.CompareHashAndPassword hasher (a_password a) Password = Some e →
     controller.Login hasher (app.auth cfg) Username Password w =
       (controller.Status codes.Unauthenticated "invalid credentials", sent w)).
Proof.
  intros Hu Hp. split.
  - intros Hwhy. unfold controller.Login, bind.
    rewrite decide_False by (by intros [?|?]).
    unfold Login, bind. cbn. rewrite GetByUsername_run.
    destruct (slot 0 w) as [msg|]; [done|].
    destruct Hwhy as [[? [=]]|Hno]. by rewrite (no_account_invisible _ _ Hno).
  - intros a e Hs Ha <- Hpw. unfold controller.Login, bind.
    rewrite decide_False by (by intros [?|?]).
    unfold Login, bind. cbn. rewrite GetByUsername_run, Hs.
    destruct (the_account_first _ _ Ha) as (u & k & -> & _ & ->). by rewrite Hpw.
Qed.

Lemma handler_Login_status_witness :
  controller.Login sample.hasher sample.auth "bob" "hunter22" sample.world =
    (controller.Status codes.NotFound "account not found", sample.world) ∧
  controller.Login sample.hasher sample.auth "alice" "secret13" sample.world =
    (controller.Status codes.Unauthenticated "invalid credentials", sample.world).
Proof.
  split.
  - refine (proj1 (handler_Login_status sample.hasher app.defaultAuthCode
                     "bob" "hunter22" sample.world _ _) (or_intror sample_no_bob));
      discriminate.
  - refine (proj2 (handler_Login_status sample.hasher app.defaultAuthCode
                     "alice" "secret13" sample.world _ _)
              sample.alice _ eq_refl sample_the_account eq_refl eq_refl);
      discriminate.
Defined.

(** ** Sessions, again *)

(** X22.  [Login] never ends a session: with the store answering, when
    [Login] succeeds it adds one row at the end of [token] and every
    token that was resolved to an account before is resolved to the same
    account afterwards. *)
Theorem Login_keeps_sessions (hasher : bcrypt.t) (cfg : AuthCode)
    (username password tok : string) (w w' : World) (resp : LoginResponse)
    (userID : Z) :
  faults w = [] →
  Login hasher (app.auth cfg) username password w = (Ok resp, w') →
  (CheckAccessToken (app.auth cfg) tok w).1 = (userID, None) →
  token (db w') =
    token (db w) ++ [mkAccessToken (token_id_seq (db w) + 1) (lr_ID resp)
                       (lr_Token resp) (now w) (now w)] ∧
  (CheckAccessToken (app.auth cfg) tok w').1 = (userID, None).
Proof.
  intros Hf HL HC.
  unfold Login, bind in HL. cbn in HL.
  rewrite (GetByUsername_quiet _ _ Hf) in HL.
  destruct (filter (λ u, u_Username u = username) (sql.account_join_role (db w)))
    as [|u k]; [done|].
  destruct (bcrypt.CompareHashAndPassword hasher (u_Password u) password); [done|].
  destruct (decide (32 ≤ length (entropy w))%nat) as [He|He].
  2:{ unfold generateAccessToken, rand.Read, bind in HL.
      by rewrite decide_False in HL. }
  rewrite (generateAccessToken_run _ _ He) in HL. cbv beta iota in HL.
  rewrite CreateAccessToken_quiet in HL by done. cbn in HL. injection HL as <- <-.
  split; [done|].
  unfold CheckAccessToken, bind in *. cbn in *.
  rewrite GetAccessTokenByToken_quiet in * by done. cbn. rewrite filter_app.
  by destruct (filter (λ r, at_Token r = tok) (token (db w))).
Qed.

Lemma Login_keeps_sessions_witness :
  let w' := (Login sample.hasher sample.auth "alice" "secret12" sample.world).2 in
  token (db w') =
    token (db sample.world) ++
    [mkAccessToken 2 42
       "030a11181f262d343b424950575e656c737a81888f969da4abb2b9c0c7ced5dc" 100 100] ∧
  (CheckAccessToken sample.auth "00ff" w').1 = (7, None).
Proof.
  refine (Login_keeps_sessions sample.hasher app.defaultAuthCode "alice" "secret12"
            "00ff" sample.world _
            (mkLoginResponse 42
               "030a11181f262d343b424950575e656c737a81888f969da4abb2b9c0c7ced5dc")
            7 eq_refl _ _).
  - vm_compute. reflexivity.
  - vm_compute. reflexivity.
Defined.
